(** * Persona builder: a shallow embedding of [main_openai.py] and [main.py]

    The two scripts fetch a Reddit user's posts and comments, ask a hosted
    language model for a persona and (in [main_openai.py]) fall back to a
    local word-frequency / sentiment summary.

    Conventions of the embedding.
    - A Python [str] is modelled by the [string] of its UTF-8 bytes.
      [str.strip()] is modelled on them for the white space of all of
      Unicode.  [w.isalpha()] and [w.lower()] of the words of a blob belong
      to the analyzer record and are left open, so that the statements
      hold for Python's own character tables.  [len] and [[:200]] count
      bytes.
    - A Python [float] is modelled by the rational it denotes ([Q]);
      [int / int] is the quotient rounded to the nearest binary64 number,
      and raises on a zero divisor.
    - [print], [Path.mkdir] and [Path.write_text] are recorded as a trace of
      [event]s, in program order.
    - TextBlob, PRAW and the OpenAI client are external collaborators: the
      first is a record of functions, the other two are described by the
      answers they give during one run.  Where a statement is about the
      sentiment scores themselves, TextBlob's estimator is the one the
      specification describes ([SpecSentiment]). *)

From Stdlib Require Import List Bool Arith ZArith QArith Qpower Lia Lqa.
From Stdlib Require Import Ascii String DecimalString.
From Stdlib Require DecimalPos DecimalN.
From Stdlib Require Import Permutation Sorted.
Import ListNotations.

Local Open Scope list_scope.
Local Open Scope string_scope.

(* ------------------------------------------------------------------ *)
(** ** Python string primitives *)
(* ------------------------------------------------------------------ *)

Module PyStr.

Definition nl : string := String (ascii_of_nat 10) "".

(** [sep.join(parts)] *)
Fixpoint join (sep : string) (parts : list string) : string :=
  match parts with
  | [] => ""
  | [p] => p
  | p :: rest => p ++ sep ++ join sep rest
  end.

Definition is_upper (c : ascii) : bool :=
  let n := nat_of_ascii c in (65 <=? n)%nat && (n <=? 90)%nat.

Definition is_lower (c : ascii) : bool :=
  let n := nat_of_ascii c in (97 <=? n)%nat && (n <=? 122)%nat.

Definition is_digit (c : ascii) : bool :=
  let n := nat_of_ascii c in (48 <=? n)%nat && (n <=? 57)%nat.

(** The letters of ASCII. *)
Definition is_alpha (c : ascii) : bool := is_upper c || is_lower c.


Fixpoint forallb_str (p : ascii -> bool) (s : string) : bool :=
  match s with
  | EmptyString => true
  | String c r => p c && forallb_str p r
  end.

Fixpoint map_str (f : ascii -> ascii) (s : string) : string :=
  match s with
  | EmptyString => EmptyString
  | String c r => String (f c) (map_str f r)
  end.

(** [s.isalpha()] for ASCII text: at least one character, all of them
    letters.  The sample analyzer below uses it; the builder takes the
    test from the analyzer record. *)
Definition isalpha (s : string) : bool :=
  match s with
  | EmptyString => false
  | _ => forallb_str is_alpha s
  end.

Definition lower_char (c : ascii) : ascii :=
  if is_upper c then ascii_of_nat (nat_of_ascii c + 32) else c.

(** [s.lower()] on the letters of ASCII; the other bytes are kept.  It is
    what the test for "quota" in an error text sees: no character outside
    ASCII becomes one of the letters q, u, o, t, a in lower case. *)
Definition lower (s : string) : string := map_str lower_char s.

(** [s.lstrip(chars)] and [s.rstrip(chars)] for one-byte characters. *)
Fixpoint lstrip_by (p : ascii -> bool) (s : string) : string :=
  match s with
  | EmptyString => EmptyString
  | String c r => if p c then lstrip_by p r else s
  end.

Fixpoint rstrip_by (p : ascii -> bool) (s : string) : string :=
  match s with
  | EmptyString => EmptyString
  | String c r =>
      match rstrip_by p r with
      | EmptyString => if p c then EmptyString else String c EmptyString
      | r' => String c r'
      end
  end.

(** The string of the given bytes. *)
Definition bytes (l : list nat) : string :=
  string_of_list_ascii (map ascii_of_nat l).

(** The characters [str.strip()] removes, those [str.isspace] accepts, in
    UTF-8: U+0009..000D, U+001C..0020, U+0085, U+00A0, U+1680,
    U+2000..200A, U+2028, U+2029, U+202F, U+205F and U+3000. *)
Definition whitespace : list string :=
  map bytes
    [[9]; [10]; [11]; [12]; [13]; [28]; [29]; [30]; [31]; [32];
     [194; 133]; [194; 160]; [225; 154; 128];
     [226; 128; 128]; [226; 128; 129]; [226; 128; 130]; [226; 128; 131];
     [226; 128; 132]; [226; 128; 133]; [226; 128; 134]; [226; 128; 135];
     [226; 128; 136]; [226; 128; 137]; [226; 128; 138];
     [226; 128; 168]; [226; 128; 169]; [226; 128; 175];
     [226; 129; 159]; [227; 128; 128]]%nat.

(** [s] without the prefix [p], if it starts with [p]. *)
Fixpoint strip_prefix (p s : string) : option string :=
  match p with
  | EmptyString => Some s
  | String a p' =>
      match s with
      | String b s' => if Ascii.eqb a b then strip_prefix p' s' else None
      | EmptyString => None
      end
  end.

(** [s] without its first character, if that is one of [ws]. *)
Fixpoint drop_first (ws : list string) (s : string) : option string :=
  match ws with
  | [] => None
  | w :: rest =>
      match strip_prefix w s with
      | Some r => Some r
      | None => drop_first rest s
      end
  end.

Fixpoint lstrip_fuel (n : nat) (s : string) : string :=
  match n with
  | O => s
  | S n' =>
      match drop_first whitespace s with
      | Some r => lstrip_fuel n' r
      | None => s
      end
  end.

(** [s.lstrip()] *)
Definition lstrip (s : string) : string := lstrip_fuel (String.length s) s.

(** [s.rstrip()]: from the end, a character is dropped when it is white
    space and nothing but white space follows it. *)
Fixpoint rstrip (s : string) : string :=
  match s with
  | EmptyString => EmptyString
  | String c r =>
      let t := String c (rstrip r) in
      if existsb (String.eqb t) whitespace then EmptyString else t
  end.

(** [s.strip()] *)
Definition strip (s : string) : string := rstrip (lstrip s).

(** [sub in s] *)
Fixpoint contains (sub s : string) : bool :=
  prefix sub s ||
  match s with
  | EmptyString => false
  | String _ r => contains sub r
  end.

(** [s.split(sep)] for a one-character separator. *)
Fixpoint split_char (sep : ascii) (s : string) : list string :=
  match s with
  | EmptyString => [EmptyString]
  | String c r =>
      if Ascii.eqb c sep then EmptyString :: split_char sep r
      else match split_char sep r with
           | [] => [String c EmptyString]
           | h :: t => String c h :: t
           end
  end.

(** [str(n)] for a non-negative integer. *)
Definition str_nat (n : nat) : string := NilEmpty.string_of_uint (Nat.to_uint n).
Definition str_N (n : N) : string := NilEmpty.string_of_uint (N.to_uint n).

(** [x in xs] for a list of strings. *)
Definition mem (x : string) (xs : list string) : bool :=
  existsb (String.eqb x) xs.

(** [s.replace(a, b)] for one-character [a] and [b]. *)
Definition replace_char (a b : ascii) (s : string) : string :=
  map_str (fun c => if Ascii.eqb c a then b else c) s.

(** [s[:n]] *)
Fixpoint slice_to (n : nat) (s : string) : string :=
  match n, s with
  | S n', String c r => String c (slice_to n' r)
  | _, _ => EmptyString
  end.

(** [s.count(c)] for a one-character [c]. *)
Fixpoint count_char (c : ascii) (s : string) : nat :=
  match s with
  | EmptyString => 0%nat
  | String x r => ((if Ascii.eqb x c then 1 else 0) + count_char c r)%nat
  end.

Definition LF : ascii := ascii_of_nat 10.
Definition dquote : string := String (ascii_of_nat 34) EmptyString.

End PyStr.

(* ------------------------------------------------------------------ *)
(** ** Calls that may raise *)
(* ------------------------------------------------------------------ *)

(** A call that returns or raises; [Raise] carries [str(e)]. *)
Inductive result (A : Type) :=
| Ok (a : A)
| Raise (e : string).
Arguments Ok {A} a.
Arguments Raise {A} e.

Definition bind {A B} (r : result A) (k : A -> result B) : result B :=
  match r with
  | Ok a => k a
  | Raise e => Raise e
  end.

Notation "x <- r ;; k" := (bind r (fun x => k))
  (at level 61, r at next level, right associativity).

(* ------------------------------------------------------------------ *)
(** ** Fixed-point rendering of numbers: [f"{x:.2f}"] *)
(* ------------------------------------------------------------------ *)

Module PyFmt.

Definition digit_char (d : Z) : ascii := ascii_of_nat (48 + Z.to_nat d).

(** The [d] low decimal digits of [n], most significant first. *)
Fixpoint digits_fixed (d : nat) (n : Z) : string :=
  match d with
  | O => EmptyString
  | S d' => digits_fixed d' (n / 10) ++ String (digit_char (n mod 10)) EmptyString
  end.

(** Nearest integer to [n / m], ties to even ([0 <= n], [0 < m]). *)
Definition round_half_even (n m : Z) : Z :=
  let q := (n / m)%Z in
  let r := (n mod m)%Z in
  match (2 * r ?= m)%Z with
  | Lt => q
  | Gt => (q + 1)%Z
  | Eq => if Z.even q then q else (q + 1)%Z
  end.

(** [format(x, ".<d>f")]: sign, integer digits, and [d] fractional digits. *)
Definition format_fixed (d : nat) (x : Q) : string :=
  let scale := (10 ^ Z.of_nat d)%Z in
  let r := round_half_even (Z.abs (Qnum x) * scale) (Zpos (Qden x)) in
  let sign := if (Qnum x <? 0)%Z then "-" else "" in
  let int_part := PyStr.str_N (Z.to_N (r / scale)) in
  match d with
  | O => sign ++ int_part
  | _ => sign ++ int_part ++ "." ++ digits_fixed d (r mod scale)
  end.

End PyFmt.

(* ------------------------------------------------------------------ *)
(** ** True division of integers: [a / b] *)
(* ------------------------------------------------------------------ *)

Module PyFloat.

(** For [q > 0], the [e] with [2^e <= q < 2^(e+1)]. *)
Definition exponent (q : Q) : Z :=
  let e0 := (Z.log2 (Qnum q) - Z.log2 (Zpos (Qden q)))%Z in
  if Qle_bool (2 ^ e0) q then e0 else (e0 - 1)%Z.

(** The binary64 number nearest to [q > 0], ties to the even significand:
    [q] is scaled to a significand of 53 bits, which is rounded.  The
    exponent range of binary64 is not modelled; quotients of list lengths
    lie far inside it. *)
Definition binary64_pos (q : Q) : Q :=
  let s := (exponent q - 52)%Z in
  let x := q * 2 ^ (- s) in
  inject_Z (PyFmt.round_half_even (Qnum x) (Zpos (Qden x))) * 2 ^ s.

Definition binary64 (q : Q) : Q :=
  match Qnum q with
  | Z0 => 0
  | Zpos _ => binary64_pos q
  | Zneg _ => - binary64_pos (- q)
  end.

(** [a / b] for two [int]s: [ZeroDivisionError] for [b = 0], otherwise the
    float nearest to the quotient. *)
Definition true_div (a b : Z) : result Q :=
  if (b =? 0)%Z then Raise "division by zero"
  else Ok (binary64 (inject_Z a / inject_Z b)).

End PyFloat.

(* ------------------------------------------------------------------ *)
(** ** Data model *)
(* ------------------------------------------------------------------ *)

(** The 4-tuples [(created_utc, kind, text, permalink)] built by the fetcher. *)
Record ContentItem := mkItem {
  created_utc : Z;
  kind : string;
  text : string;
  permalink : string
}.

(** What the script uses of a [TextBlob]: [blob.words], [blob.sentences]
    (each sentence is a blob again, so [s.words] is [tb_words] of its text),
    [blob.sentiment], and of every word [w] of [blob.words], a [Word]
    object whose string methods are those of [str], [w.isalpha()] and
    [w.lower()].  Nothing is assumed about any of them. *)
Record TextBlob := mkTextBlob {
  tb_words : string -> list string;
  tb_sentences : string -> list string;
  tb_polarity : string -> Q;
  tb_subjectivity : string -> Q;
  tb_isalpha : string -> bool;
  tb_lower : string -> string
}.

(* ------------------------------------------------------------------ *)
(** ** [collections.Counter] over strings, in insertion order *)
(* ------------------------------------------------------------------ *)

Module Counter.

Definition t := list (string * nat).

(** [c[w] += 1]: an existing key keeps its place, a new key goes last. *)
Fixpoint add (w : string) (c : t) : t :=
  match c with
  | [] => [(w, 1%nat)]
  | (k, n) :: rest =>
      if String.eqb k w then (k, S n) :: rest else (k, n) :: add w rest
  end.

(** [Counter(words)] *)
Definition of_list (ws : list string) : t :=
  fold_left (fun c w => add w c) ws [].

(** [c[w]], which is 0 for a missing key. *)
Fixpoint get (w : string) (c : t) : nat :=
  match c with
  | [] => 0%nat
  | (k, n) :: rest => if String.eqb k w then n else get w rest
  end.

(** [sorted(items, key=itemgetter(1), reverse=True)]: a stable sort, so
    items of equal count stay in their original order. *)
Fixpoint insert_desc (x : string * nat) (l : t) : t :=
  match l with
  | [] => [x]
  | y :: rest =>
      if (snd y <=? snd x)%nat then x :: y :: rest
      else y :: insert_desc x rest
  end.

Definition sort_desc (l : t) : t := fold_right insert_desc [] l.

(** [c.most_common(n)], that is [heapq.nlargest(n, c.items(), key=count)],
    which is [sorted(..., reverse=True)[:n]]. *)
Definition most_common (n : nat) (c : t) : t := firstn n (sort_desc c).

End Counter.

(* ------------------------------------------------------------------ *)
(** ** 4b. The statistical fallback builder ([main_openai.py]) *)
(* ------------------------------------------------------------------ *)

Definition stopwords : list string :=
  ["the"; "and"; "is"; "in"; "to"; "of"; "a"; "for"; "on"; "it"; "with"; "this";
   "that"; "i"; "you"; "as"; "was"; "are"; "but"; "they"; "be"; "or"; "not"].

(** [" ".join([text for _, _, text, _ in posts + comments])] *)
Definition combined (posts comments : list ContentItem) : string :=
  PyStr.join " " (map text (posts ++ comments)).

(** [[w.lower() for w in blob.words
      if w.isalpha() and w.lower() not in stopwords]] *)
Definition topic_words (tb : TextBlob) (corpus : string) : list string :=
  map (tb_lower tb)
    (filter (fun w => tb_isalpha tb w && negb (PyStr.mem (tb_lower tb w) stopwords))
            (tb_words tb corpus)).

(** [top = Counter(words).most_common(5)] *)
Definition top_topics (tb : TextBlob) (corpus : string) : Counter.t :=
  Counter.most_common 5 (Counter.of_list (topic_words tb corpus)).

Definition Qltb (a b : Q) : bool :=
  match Qcompare a b with Lt => true | _ => false end.

(** ["positive" if p > 0 else "negative" if p < 0 else "neutral"] *)
Definition tone (p : Q) : string :=
  if Qltb 0 p then "positive" else if Qltb p 0 then "negative" else "neutral".

(** The two lines appended under "Summary". *)
Definition summary_lines (top : Counter.t) (polarity : Q) : list string :=
  "**Summary:**" ::
  match top with
  | [] => ["Not enough content to summarize interests." ++ PyStr.nl]
  | _ =>
      let topics := PyStr.join ", " (map fst top) in
      ["User frequently discusses " ++ topics ++ ". Overall sentiment is "
         ++ tone polarity ++ "." ++ PyStr.nl]
  end.

Definition bullet (tc : string * nat) : string :=
  "- " ++ fst tc ++ " (mentioned " ++ PyStr.str_nat (snd tc) ++ " times)".

(** The header of "Key Interests/Topics" and one bullet per top topic. *)
Definition interest_lines (top : Counter.t) : list string :=
  "**Key Interests/Topics:**" :: map bullet top.

(** [sum(len(s.words) for s in blob.sentences)] *)
Definition total_words (tb : TextBlob) (sentences : list string) : nat :=
  list_sum (map (fun s => List.length (tb_words tb s)) sentences).

(** [sum(...) / len(blob.sentences) if blob.sentences else 0], as it is
    evaluated: the division is reached with a non-empty list only. *)
Definition avg_len_expr (tb : TextBlob) (corpus : string) : result Q :=
  match tb_sentences tb corpus with
  | [] => Ok 0%Q
  | ss => PyFloat.true_div (Z.of_nat (total_words tb ss)) (Z.of_nat (List.length ss))
  end.

(** The value of [avg_len]; the expression never raises (see
    [avg_len_expr_ok]), so the second case does not occur. *)
Definition avg_len (tb : TextBlob) (corpus : string) : Q :=
  match avg_len_expr tb corpus with
  | Ok v => v
  | Raise _ => 0%Q
  end.

Definition style_lines (polarity subjectivity avg : Q) : list string :=
  [PyStr.nl ++ "**Communication Style & Tone:**";
   "- Sentiment polarity: " ++ PyFmt.format_fixed 2 polarity
     ++ ", subjectivity: " ++ PyFmt.format_fixed 2 subjectivity;
   "- Average sentence length: " ++ PyFmt.format_fixed 1 avg ++ " words" ++ PyStr.nl].

(** The list [lines] as it stands when the function returns. *)
Definition persona_lines (tb : TextBlob) (posts comments : list ContentItem)
  : list string :=
  let corpus := combined posts comments in
  let top := top_topics tb corpus in
  let polarity := tb_polarity tb corpus in
  let subjectivity := tb_subjectivity tb corpus in
  summary_lines top polarity
    ++ interest_lines top
    ++ style_lines polarity subjectivity (avg_len tb corpus).

Definition build_persona_simple (tb : TextBlob) (posts comments : list ContentItem)
  : string :=
  PyStr.join PyStr.nl (persona_lines tb posts comments).

(* ------------------------------------------------------------------ *)
(** ** Effects: console, file system, exceptions *)
(* ------------------------------------------------------------------ *)

(** What a run does to the outside, in program order.  [Uncaught] ends a run
    whose exception no handler catches. *)
Inductive event :=
| Print (line : string)
| Mkdir (path : string)
| WriteText (path content : string)
| Uncaught (exc : string).

Definition is_write (e : event) : bool :=
  match e with WriteText _ _ => true | _ => false end.

(** The files a run writes, with their contents. *)
Fixpoint written (tr : list event) : list (string * string) :=
  match tr with
  | [] => []
  | WriteText p c :: rest => (p, c) :: written rest
  | _ :: rest => written rest
  end.

Definition printed (line : string) (tr : list event) : Prop := In (Print line) tr.

(* ------------------------------------------------------------------ *)
(** ** 2./3. The Reddit client and [fetch_user_content] (both scripts) *)
(* ------------------------------------------------------------------ *)

Record Submission := mkSubmission {
  sub_created_utc : Z;
  sub_title : string;
  sub_selftext : string;
  sub_permalink : string
}.

Record RedditComment := mkComment {
  com_created_utc : Z;
  com_body : string;
  com_permalink : string
}.

(** A PRAW listing: the items the server holds, newest first, and whether
    the request after the last of them fails. *)
Record Listing (A : Type) := mkListing {
  available : list A;
  failure : option string
}.
Arguments available {A} l.
Arguments failure {A} l.
Arguments mkListing {A} available failure.

(** [for x in listing.new(limit=n)]: the generator stops after [n] items;
    it raises only if it has to ask the server past the available ones. *)
Definition iterate {A} (l : Listing A) (limit : nat) : result (list A) :=
  if (limit <=? List.length (available l))%nat then Ok (firstn limit (available l))
  else match failure l with
       | None => Ok (available l)
       | Some e => Raise e
       end.

(** The Reddit API as one run sees it. *)
Record Reddit := mkReddit {
  redditor_id : string -> result string;
  submissions_new : string -> Listing Submission;
  comments_new : string -> Listing RedditComment
}.

(** [post.title + ("\n\n" + post.selftext if post.selftext else "")] *)
Definition post_text (p : Submission) : string :=
  sub_title p ++
  match sub_selftext p with
  | EmptyString => ""
  | body => PyStr.nl ++ PyStr.nl ++ body
  end.

Definition post_item (p : Submission) : ContentItem :=
  mkItem (sub_created_utc p) "Post" (post_text p) (sub_permalink p).

Definition comment_item (c : RedditComment) : ContentItem :=
  mkItem (com_created_utc c) "Comment" (com_body c) (com_permalink c).

(** The body of the [try] block. *)
Definition fetch_body (r : Reddit) (username : string)
    (limit_posts limit_comments : nat)
  : result (list ContentItem * list ContentItem) :=
  _ <- redditor_id r username ;;
  posts <- iterate (submissions_new r username) limit_posts ;;
  comments <- iterate (comments_new r username) limit_comments ;;
  Ok (map post_item posts, map comment_item comments).

(** The pair the function returns: each component is a list or [None]. *)
Definition fetched : Type :=
  (option (list ContentItem) * option (list ContentItem))%type.

Definition fetch_user_content (r : Reddit) (username : string)
    (limit_posts limit_comments : nat) : list event * fetched :=
  match fetch_body r username limit_posts limit_comments with
  | Ok (posts, comments) => ([], (Some posts, Some comments))
  | Raise e =>
      ([Print ("[ERROR] fetching content for u/" ++ username ++ ": " ++ e)],
       (None, None))
  end.

(* ------------------------------------------------------------------ *)
(** ** 4a. The LLM persona generator *)
(* ------------------------------------------------------------------ *)

(** The hosted model's answer to the prompt built from the user name and
    the items: the text of [resp.choices[0].message.content], or the
    exception of the call. *)
Definition ChatCompletion : Type :=
  string -> list ContentItem -> list ContentItem -> result string.

(** [build_persona_llm] of [main_openai.py] *)
Definition build_persona_llm (chat : ChatCompletion) (username : string)
    (posts comments : list ContentItem) : list event * option string :=
  match chat username posts comments with
  | Ok content => ([], Some (PyStr.strip content))
  | Raise e =>
      ([Print (if PyStr.contains "quota" (PyStr.lower e)
               then "[ERROR] OpenAI quota exceeded."
               else "[ERROR] generating persona: " ++ e)],
       None)
  end.

(** [build_persona] of [main.py] *)
Definition build_persona (chat : ChatCompletion) (username : string)
    (posts comments : list ContentItem) : list event * option string :=
  match chat username posts comments with
  | Ok content => ([], Some (PyStr.strip content))
  | Raise e => ([Print ("[ERROR] generating persona: " ++ e)], None)
  end.

(** [txt.replace("\n", " ").strip()[:200]] *)
Definition snippet (txt : string) : string :=
  PyStr.slice_to 200 (PyStr.strip (PyStr.replace_char PyStr.LF " " txt)).

(** One entry of [out] in the nested [fmt]; [date_of ts] stands for
    [datetime.utcfromtimestamp(ts).strftime("%Y-%m-%d")], and the two
    scripts differ in the quotes around the snippet only. *)
Definition fmt_entry (open_quote close_quote : string) (date_of : Z -> string)
    (it : ContentItem) : string :=
  "- (" ++ kind it ++ " from " ++ date_of (created_utc it)
    ++ ", https://www.reddit.com" ++ permalink it ++ ") "
    ++ open_quote ++ snippet (text it) ++ "…" ++ close_quote.

(** [fmt] of [build_persona_llm] ([main_openai.py]) *)
Module BuildPersonaLlm.
Definition fmt (date_of : Z -> string) (items : list ContentItem) : string :=
  PyStr.join PyStr.nl (map (fmt_entry "“" "”" date_of) items).
End BuildPersonaLlm.

(** [fmt] of [build_persona] ([main.py]) *)
Module BuildPersona.
Definition fmt (date_of : Z -> string) (items : list ContentItem) : string :=
  PyStr.join PyStr.nl (map (fmt_entry PyStr.dquote PyStr.dquote date_of) items).
End BuildPersona.

(* ------------------------------------------------------------------ *)
(** ** 5. The two entry points *)
(* ------------------------------------------------------------------ *)

(** Everything outside the script that one run depends on. *)
Record World := mkWorld {
  reddit : Reddit;
  chat : ChatCompletion;
  blob : TextBlob;
  cwd : string
}.

(** [args.url.rstrip("/").split("/")[-1]] *)
Definition username_of (url : string) : string :=
  last (PyStr.split_char "/" (PyStr.rstrip_by (Ascii.eqb "/") url)) "".

(** [Path("outputs") / f"{username}_persona.txt"] *)
Definition out_file (username : string) : string :=
  "outputs/" ++ username ++ "_persona.txt".

(** [out_file.resolve()] *)
Definition resolve (w : World) (path : string) : string := cwd w ++ "/" ++ path.

(** Python truth value of a list-or-[None]. *)
Definition truthy {A} (o : option (list A)) : bool :=
  match o with
  | Some (_ :: _) => true
  | _ => false
  end.

(** Python truth value of a string-or-[None]. *)
Definition truthy_str (o : option string) : bool :=
  match o with
  | Some (String _ _) => true
  | _ => false
  end.

Definition persona_text (o : option string) : string :=
  match o with Some s => s | None => "" end.

Module MainOpenai.

Definition write_out (w : World) (username persona : string) : list event :=
  [Mkdir "outputs";
   WriteText (out_file username) persona;
   Print ("[✔] Persona written to " ++ resolve w (out_file username))].

(** [main] from the line after the call of [fetch_user_content]. *)
Definition after_fetch (w : World) (username : string) (r : fetched) : list event :=
  let '(posts, comments) := r in
  if negb (truthy posts) && negb (truthy comments) then
    [Print "[ERROR] No posts or comments found; exiting."]
  else
    match posts, comments with
    | Some posts, Some comments =>
        Print "[+] Trying OpenAI persona generation…" ::
        let '(ev, persona) := build_persona_llm (chat w) username posts comments in
        ev ++
        if negb (truthy_str persona) then
          Print "[+] Falling back to simple persona builder…" ::
          write_out w username (build_persona_simple (blob w) posts comments)
        else
          write_out w username (persona_text persona)
    | _, _ =>
        [Print "[+] Trying OpenAI persona generation…"; Uncaught "TypeError"]
    end.

Definition main (w : World) (url : string) : list event :=
  if negb (PyStr.contains "reddit.com/user/" url) then
    [Print "[ERROR] Please provide a valid Reddit user profile URL."]
  else
    let username := username_of url in
    Print ("[+] Fetching content for u/" ++ username ++ "…") ::
    let '(ev, r) := fetch_user_content (reddit w) username 100 100 in
    ev ++ after_fetch w username r.

End MainOpenai.

Module MainLlmOnly.

Definition write_out (w : World) (username persona : string) : list event :=
  [Mkdir "outputs";
   WriteText (out_file username) persona;
   Print ("[✔] Wrote " ++ PyStr.str_nat (String.length persona)
            ++ " characters to " ++ resolve w (out_file username))].

(** [main] of [main.py] from the line after the call of [fetch_user_content]. *)
Definition after_fetch (w : World) (username : string) (r : fetched) : list event :=
  match r with
  | (Some posts, Some comments) =>
      Print ("[+] Fetched " ++ PyStr.str_nat (List.length posts) ++ " posts and "
               ++ PyStr.str_nat (List.length comments) ++ " comments.") ::
      if negb (truthy (Some posts)) && negb (truthy (Some comments)) then
        [Print ("[!] No content found for u/" ++ username ++ "; exiting.")]
      else
        Print "[+] Generating persona with OpenAI ChatCompletion…" ::
        let '(ev, persona) := build_persona (chat w) username posts comments in
        ev ++
        if negb (truthy_str persona) then
          [Print "[!] Persona generation returned empty; exiting."]
        else
          write_out w username (persona_text persona)
  | _ => []
  end.

Definition main (w : World) (url : string) : list event :=
  if negb (PyStr.contains "reddit.com/user/" url) then
    [Print "[ERROR] Please provide a valid Reddit user profile URL."]
  else
    let username := username_of url in
    Print ("[+] Fetching content for u/" ++ username ++ "…") ::
    let '(ev, r) := fetch_user_content (reddit w) username 100 100 in
    ev ++ after_fetch w username r.

End MainLlmOnly.

(* ------------------------------------------------------------------ *)
(** ** A small text analyzer to run the builder on concrete corpora *)
(* ------------------------------------------------------------------ *)

(** A stand-in for TextBlob with the same interface: words are the maximal
    runs of letters and digits, sentences end at [.], [!] or [?], and the
    sentiment is the mean over the words found in a five-entry lexicon.  On
    the corpora used below (plain words separated by single blanks, no
    punctuation) it yields the words and the single sentence TextBlob
    yields. *)
Module Sample.

(** The pieces of [s] between the characters that satisfy [sep]. *)
Fixpoint split_by (sep : ascii -> bool) (s : string) : list string :=
  match s with
  | EmptyString => [EmptyString]
  | String c r =>
      if sep c then EmptyString :: split_by sep r
      else match split_by sep r with
           | [] => [String c EmptyString]
           | h :: t => String c h :: t
           end
  end.

Definition nonempty (s : string) : bool :=
  match s with EmptyString => false | _ => true end.

Definition words (s : string) : list string :=
  filter nonempty
    (split_by (fun c => negb (PyStr.is_alpha c || PyStr.is_digit c)) s).

Definition is_terminator (c : ascii) : bool :=
  Ascii.eqb c "." || Ascii.eqb c "!" || Ascii.eqb c "?".

Definition sentences (s : string) : list string :=
  filter nonempty (map PyStr.strip (split_by is_terminator s)).

(** word, polarity, subjectivity *)
Definition lexicon : list (string * (Q * Q)) :=
  [("love", (1#2, 3#5)); ("great", (4#5, 3#4)); ("good", (7#10, 3#5));
   ("hate", (-4#5, 9#10)); ("bad", (-7#10, 2#3))].

Fixpoint lookup (w : string) (lex : list (string * (Q * Q))) : option (Q * Q) :=
  match lex with
  | [] => None
  | (k, v) :: rest => if String.eqb k w then Some v else lookup w rest
  end.

(** The lexicon entries of the words of [s], in order. *)
Fixpoint assessments (ws : list string) : list (Q * Q) :=
  match ws with
  | [] => []
  | w :: rest =>
      match lookup (PyStr.lower w) lexicon with
      | Some v => v :: assessments rest
      | None => assessments rest
      end
  end.

Definition mean (xs : list Q) : Q :=
  match xs with
  | [] => 0
  | _ => Qred (fold_right Qplus 0 xs / inject_Z (Z.of_nat (List.length xs)))
  end.

Definition polarity (s : string) : Q := mean (map fst (assessments (words s))).
Definition subjectivity (s : string) : Q := mean (map snd (assessments (words s))).

Definition analyzer : TextBlob :=
  mkTextBlob words sentences polarity subjectivity PyStr.isalpha PyStr.lower.

Definition post (t : string) : ContentItem := mkItem 1700000000 "Post" t "/r/x/1".
Definition comment (t : string) : ContentItem := mkItem 1700000100 "Comment" t "/r/x/2".

(** Three users: one the API does not know, one without activity, one with
    a post and a comment. *)
Definition no_items {A} : Listing A := mkListing [] None.

Definition reddit_unknown : Reddit :=
  mkReddit (fun _ => Raise "received 404 HTTP response")
           (fun _ => no_items) (fun _ => no_items).

Definition reddit_silent : Reddit :=
  mkReddit (fun u => Ok u) (fun _ => no_items) (fun _ => no_items).

Definition reddit_active : Reddit :=
  mkReddit (fun u => Ok u)
    (fun _ => mkListing
       [mkSubmission 1700000000 "I love hiking" "and climbing" "/r/x/1"] None)
    (fun _ => mkListing
       [mkComment 1700000100 "Climbing is great exercise" "/r/x/2"] None).

(** A user whose one comment consists of stopwords. *)
Definition reddit_terse : Reddit :=
  mkReddit (fun u => Ok u)
    (fun _ => no_items)
    (fun _ => mkListing [mkComment 1700000100 "It is the" "/r/x/2"] None).

(** Three answers of the hosted model. *)
Definition chat_persona : ChatCompletion :=
  fun u _ _ => Ok (PyStr.nl ++ "**User Persona: u/" ++ u ++ "**  ").

Definition chat_blank : ChatCompletion := fun _ _ _ => Ok (" " ++ PyStr.nl).

Definition chat_quota : ChatCompletion :=
  fun _ _ _ => Raise "You exceeded your current quota".

Definition world (r : Reddit) (c : ChatCompletion) : World :=
  mkWorld r c analyzer "/home/user".

Definition url : string := "https://www.reddit.com/user/kojied/".

End Sample.

(* ------------------------------------------------------------------ *)
(** ** The sentiment model behind [blob.sentiment] *)
(* ------------------------------------------------------------------ *)

(** Modelled from the spec: the sentiment estimator, which is TextBlob's;
    its code is not in the repository.  The spec gives its contract: a
    lexicon-based model, "additive/averaged polarity over recognized
    sentiment-bearing words, scaled to [-1,1]", and a subjectivity in
    [[0,1]].  Here a lexicon gives a recognised word its two scores, each
    score is brought into its range, and the score of a text is the mean
    over its recognised words, 0 when there is none. *)
Module SpecSentiment.

(** word -> (polarity, subjectivity), for the recognised words *)
Definition Lexicon : Type := string -> option (Q * Q).

Definition clamp (lo hi x : Q) : Q :=
  if Qltb x lo then lo else if Qltb hi x then hi else x.

(** The scaled scores of the recognised words of [ws], in order. *)
Fixpoint assessments (lex : Lexicon) (ws : list string) : list (Q * Q) :=
  match ws with
  | [] => []
  | w :: rest =>
      match lex w with
      | Some (p, s) => (clamp (-1) 1 p, clamp 0 1 s) :: assessments lex rest
      | None => assessments lex rest
      end
  end.

Definition mean (xs : list Q) : Q :=
  match xs with
  | [] => 0
  | _ => fold_right Qplus 0 xs / inject_Z (Z.of_nat (List.length xs))
  end.

(** Modelled from the spec: the polarity of a text, the mean of the scaled
    polarities of its recognised words. *)
Definition polarity (lex : Lexicon) (words : string -> list string)
    (s : string) : Q :=
  mean (map fst (assessments lex (words s))).

(** Modelled from the spec: the subjectivity of a text, the mean of the
    scaled subjectivities of its recognised words. *)
Definition subjectivity (lex : Lexicon) (words : string -> list string)
    (s : string) : Q :=
  mean (map snd (assessments lex (words s))).

(** An analyzer whose sentiment is the estimator above; its tokenizer,
    sentence splitter and word methods are left open. *)
Definition blob (lex : Lexicon) (words sentences : string -> list string)
    (isalpha : string -> bool) (lower : string -> string) : TextBlob :=
  mkTextBlob words sentences (polarity lex words) (subjectivity lex words)
             isalpha lower.

End SpecSentiment.

(* ------------------------------------------------------------------ *)
(** ** Vocabulary of the statements *)
(* ------------------------------------------------------------------ *)

(** [x] stands somewhere before [y] in [l]. *)
Fixpoint precedes {A} (x y : A) (l : list A) : Prop :=
  match l with
  | [] => False
  | a :: rest => (a = x /\ In y rest) \/ precedes x y rest
  end.

(** Position of the first occurrence of [w] in [ws] ([length ws] if none). *)
Fixpoint first_index (w : string) (ws : list string) : nat :=
  match ws with
  | [] => 0%nat
  | x :: rest => if String.eqb x w then 0%nat else S (first_index w rest)
  end.

(** Number of occurrences of the token [w] in [ws]. *)
Definition occurrences (w : string) (ws : list string) : nat :=
  count_occ string_dec ws w.

(** Descending order of the counts. *)
Definition count_ge (p q : string * nat) : Prop := (snd q <= snd p)%nat.

(** [sub] occurs in [s]. *)
Definition substring (sub s : string) : Prop :=
  exists pre post, s = pre ++ sub ++ post.

(** [s] is a decimal numeral with exactly [d] digits after the point:
    an optional minus sign, at least one digit, the point, [d] digits. *)
Definition fixed_decimals (d : nat) (s : string) : Prop :=
  exists sign int_part frac,
    s = sign ++ int_part ++ "." ++ frac
    /\ (sign = "" \/ sign = "-")
    /\ int_part <> ""
    /\ PyStr.forallb_str PyStr.is_digit int_part = true
    /\ String.length frac = d
    /\ PyStr.forallb_str PyStr.is_digit frac = true.

(** Characters of a rendered number: digits, the sign and the point. *)
Definition numeric_char (c : ascii) : bool :=
  PyStr.is_digit c || Ascii.eqb c "-" || Ascii.eqb c ".".

(** A numeral with two decimals between 0.00 and 1.00. *)
Definition unit_numeral (s : string) : Prop :=
  exists frac,
    String.length frac = 2%nat
    /\ PyStr.forallb_str PyStr.is_digit frac = true
    /\ (s = "0." ++ frac \/ s = "1.00").

(** The run writes no file. *)
Definition no_write (tr : list event) : Prop := written tr = [].

(** The first, respectively the last, character of [s] satisfies [p]. *)
Definition starts_with (p : ascii -> bool) (s : string) : bool :=
  match s with
  | String c _ => p c
  | EmptyString => false
  end.

Fixpoint ends_with (p : ascii -> bool) (s : string) : bool :=
  match s with
  | EmptyString => false
  | String c EmptyString => p c
  | String _ r => ends_with p r
  end.

(** [s] consists of white space characters only. *)
Inductive blank : string -> Prop :=
| blank_nil : blank ""
| blank_cons w s : In w PyStr.whitespace -> blank s -> blank (w ++ s).

(** [s] starts, respectively ends, with a white space character. *)
Definition starts_blank (s : string) : Prop :=
  exists w rest, In w PyStr.whitespace /\ s = w ++ rest.

Definition ends_blank (s : string) : Prop :=
  exists front w, In w PyStr.whitespace /\ s = front ++ w.

(** [t] is [s] without its leading and trailing white space. *)
Definition trimmed_of (s t : string) : Prop :=
  (exists l r, s = l ++ t ++ r /\ blank l /\ blank r)
  /\ ~ starts_blank t
  /\ ~ ends_blank t.

(** The console lines of the two scripts. *)
Definition msg_fetching (username : string) : string :=
  "[+] Fetching content for u/" ++ username ++ "…".
Definition msg_fetch_error (username e : string) : string :=
  "[ERROR] fetching content for u/" ++ username ++ ": " ++ e.
Definition msg_nothing_found : string :=
  "[ERROR] No posts or comments found; exiting.".
Definition msg_no_content (username : string) : string :=
  "[!] No content found for u/" ++ username ++ "; exiting.".

Definition is_print (e : event) : bool :=
  match e with Print _ => true | _ => false end.

Definition is_uncaught (e : event) : bool :=
  match e with Uncaught _ => true | _ => false end.

(** The trace consists of console lines only. *)
Definition only_prints (tr : list event) : Prop := forallb is_print tr = true.

(** The trace is console lines, then the creation of [outputs], the
    writing of a non-empty persona file for [username] and a closing line. *)
Definition writes_persona (username : string) (tr : list event) : Prop :=
  exists pre persona done,
    tr = (pre ++ [Mkdir "outputs"; WriteText (out_file username) persona;
                  Print done])%list
    /\ only_prints pre /\ persona <> "".

(** No character of [s] is [c]. *)
Definition free_of (c : ascii) (s : string) : Prop :=
  PyStr.forallb_str (fun x => negb (Ascii.eqb x c)) s = true.

(** The token counts towards the topic [t]: it is alphabetic and its
    lower-case form is [t]. *)
Definition counts_as (tb : TextBlob) (t : string) (w : string) : bool :=
  tb_isalpha tb w && String.eqb (tb_lower tb w) t.

(** The number a decimal numeral denotes: an optional minus sign, digits,
    a point, digits. *)
Definition digit_value (c : ascii) : Z := (Z.of_nat (nat_of_ascii c) - 48)%Z.

Fixpoint digits_value_from (acc : Z) (s : string) : Z :=
  match s with
  | EmptyString => acc
  | String c r => digits_value_from (acc * 10 + digit_value c) r
  end.

Definition digits_value (s : string) : Z := digits_value_from 0 s.

Definition unsigned_value (s : string) : option Q :=
  match PyStr.split_char "." s with
  | [int_part; frac] =>
      if PyStr.forallb_str PyStr.is_digit int_part
         && PyStr.forallb_str PyStr.is_digit frac
      then Some (inject_Z (digits_value int_part)
                 + inject_Z (digits_value frac)
                   / inject_Z (10 ^ Z.of_nat (String.length frac)))%Q
      else None
  | _ => None
  end.

Definition numeral_value (s : string) : option Q :=
  match s with
  | String "-" r => option_map Qopp (unsigned_value r)
  | _ => unsigned_value s
  end.

(** The numeral [s] denotes a number no further than [eps] from [x]. *)
Definition renders (eps : Q) (x : Q) (s : string) : Prop :=
  exists v, numeral_value s = Some v /\ (x - eps <= v <= x + eps)%Q.

(** Replaces the value of a constant character by its number. *)
Ltac digit_constant :=
  match goal with
  | |- context [digit_value ?c] =>
      let v := eval vm_compute in (digit_value c) in
      change (digit_value c) with v
  end.

(* ------------------------------------------------------------------ *)
(** ** Lists: [precedes] and [first_index] *)
(* ------------------------------------------------------------------ *)

Section ListFacts.
Context {A : Type}.

Lemma precedes_app (x y : A) l1 l2 :
  In x l1 -> In y l2 -> precedes x y (l1 ++ l2)%list.
Proof.
  induction l1 as [|a l1 IH]; simpl; [tauto|].
  intros [->|H] Hy.
  - left. split; auto. apply in_or_app. now right.
  - right. auto.
Qed.

Lemma sorted_app (R : A -> A -> Prop) (x y : A) l1 l2 :
  StronglySorted R (l1 ++ l2)%list -> In x l1 -> In y l2 -> R x y.
Proof.
  induction l1 as [|a l1 IH]; simpl; [tauto|].
  intros Hs [->|H] Hy; inversion Hs as [|? ? Hs' Hall]; subst; auto.
  rewrite Forall_forall in Hall. apply Hall, in_or_app. now right.
Qed.

Lemma In_firstn_in (x : A) n l : In x (firstn n l) -> In x l.
Proof. rewrite <- (firstn_skipn n l) at 2. intros; apply in_or_app; auto. Qed.

Lemma precedes_in_l (x y : A) l : precedes x y l -> In x l.
Proof.
  induction l as [|a l IH]; simpl; [tauto|].
  intros [[-> _]|H]; auto.
Qed.

Lemma precedes_in_r (x y : A) l : precedes x y l -> In y l.
Proof.
  induction l as [|a l IH]; simpl; [tauto|].
  intros [[_ H]|H]; auto.
Qed.

Lemma precedes_nth (l : list A) : forall i j x y,
  (i < j)%nat -> nth_error l i = Some x -> nth_error l j = Some y ->
  precedes x y l.
Proof.
  induction l as [|a l IH]; intros i j x y Hij Hi Hj.
  - destruct i; discriminate.
  - destruct j as [|j]; [lia|].
    destruct i as [|i]; simpl in *.
    + left. split; [congruence|]. eapply nth_error_In; eauto.
    + right. apply (IH i j); auto; lia.
Qed.

Lemma precedes_firstn (x y : A) n : forall l,
  precedes x y (firstn n l) -> precedes x y l.
Proof.
  induction n as [|n IH]; intros [|a l]; simpl; try tauto.
  intros [[-> H]|H].
  - left. split; auto. eapply In_firstn_in; eauto.
  - right. auto.
Qed.

Lemma precedes_snoc (x y w : A) l :
  precedes x y (l ++ [w]) -> precedes x y l \/ (y = w /\ In x l).
Proof.
  induction l as [|a l IH]; simpl.
  - intros [[_ []]|[]].
  - intros [[-> H]|H].
    + apply in_app_or in H. destruct H as [H|[->|[]]]; auto.
    + destruct (IH H) as [H'|[-> H']]; auto.
Qed.

Lemma precedes_map {B} (f : A -> B) (x y : A) l :
  precedes x y l -> precedes (f x) (f y) (map f l).
Proof.
  induction l as [|a l IH]; simpl; [tauto|].
  intros [[-> H]|H]; [left|right]; auto using in_map.
Qed.

End ListFacts.

Lemma first_index_app_in w ws l :
  In w ws -> first_index w (ws ++ l) = first_index w ws /\ (first_index w ws < List.length ws)%nat.
Proof.
  induction ws as [|x ws IH]; simpl; [tauto|].
  intros H. destruct (String.eqb_spec x w) as [->|Hne].
  - split; [reflexivity|lia].
  - destruct H as [H|H]; [contradiction|].
    destruct (IH H). split; lia.
Qed.

Lemma first_index_app_fresh w ws :
  ~ In w ws -> first_index w (ws ++ [w]) = List.length ws.
Proof.
  induction ws as [|x ws IH]; simpl; intros H.
  - now rewrite String.eqb_refl.
  - destruct (String.eqb_spec x w) as [->|Hne]; [tauto|].
    rewrite IH; tauto.
Qed.

(* ------------------------------------------------------------------ *)
(** ** The counter: keys, counts and insertion order *)
(* ------------------------------------------------------------------ *)

Lemma mem_In w l : PyStr.mem w l = true <-> In w l.
Proof.
  unfold PyStr.mem. rewrite existsb_exists. split.
  - intros (x & Hx & E). apply String.eqb_eq in E. now subst.
  - intros H. exists w. split; auto. apply String.eqb_refl.
Qed.

Lemma add_keys w c :
  map fst (Counter.add w c) =
  if PyStr.mem w (map fst c) then map fst c else (map fst c ++ [w])%list.
Proof.
  induction c as [|[k n] c IH]; simpl; [reflexivity|].
  rewrite (String.eqb_sym w k).
  destruct (String.eqb k w); simpl; [reflexivity|].
  rewrite IH. unfold PyStr.mem. now destruct (existsb _ _).
Qed.

Lemma of_list_snoc ws w :
  Counter.of_list (ws ++ [w]) = Counter.add w (Counter.of_list ws).
Proof. unfold Counter.of_list. now rewrite fold_left_app. Qed.

Lemma get_add k w c :
  Counter.get k (Counter.add w c) =
  (Counter.get k c + if String.eqb w k then 1 else 0)%nat.
Proof.
  induction c as [|[k' n] c IH]; simpl.
  - destruct (String.eqb w k); reflexivity.
  - destruct (String.eqb_spec k' w) as [->|Hne]; simpl.
    + destruct (String.eqb w k); lia.
    + destruct (String.eqb_spec k' k) as [->|Hne'].
      * destruct (String.eqb_spec w k); [congruence|lia].
      * apply IH.
Qed.

Lemma get_of_list k ws :
  Counter.get k (Counter.of_list ws) = occurrences k ws.
Proof.
  unfold occurrences.
  induction ws as [|w ws IH] using rev_ind; [reflexivity|].
  rewrite of_list_snoc, get_add, IH, count_occ_app. simpl.
  destruct (string_dec w k) as [->|Hne].
  - now rewrite String.eqb_refl.
  - apply String.eqb_neq in Hne. now rewrite Hne.
Qed.

Lemma keys_of_list ws : forall k, In k (map fst (Counter.of_list ws)) <-> In k ws.
Proof.
  induction ws as [|w ws IH] using rev_ind; intros k; [reflexivity|].
  rewrite of_list_snoc, add_keys, in_app_iff. simpl.
  destruct (PyStr.mem w (map fst (Counter.of_list ws))) eqn:E.
  - apply mem_In in E. rewrite IH in E. rewrite IH.
    intuition (subst; auto).
  - rewrite in_app_iff, IH. simpl. tauto.
Qed.

Lemma keys_nodup ws : NoDup (map fst (Counter.of_list ws)).
Proof.
  induction ws as [|w ws IH] using rev_ind; [constructor|].
  rewrite of_list_snoc, add_keys.
  destruct (PyStr.mem w (map fst (Counter.of_list ws))) eqn:E; auto.
  assert (Hn : ~ In w (map fst (Counter.of_list ws))).
  { rewrite <- mem_In. congruence. }
  apply NoDup_rev in IH.
  apply (NoDup_cons w) in IH; [|now rewrite <- in_rev].
  apply NoDup_rev in IH. simpl in IH. now rewrite rev_involutive in IH.
Qed.

Lemma get_in k n (c : Counter.t) :
  NoDup (map fst c) -> In (k, n) c -> Counter.get k c = n.
Proof.
  induction c as [|[k' n'] c IH]; simpl; [tauto|].
  intros Hnd [H|H].
  - inversion H; subst. now rewrite String.eqb_refl.
  - inversion Hnd as [|? ? Hnot Hnd']; subst.
    destruct (String.eqb_spec k' k) as [->|Hne]; auto.
    exfalso. apply Hnot. change k with (fst (k, n)). now apply in_map.
Qed.

(** Keys are kept in the order in which the tokens were first met. *)
Lemma keys_order k1 k2 ws :
  precedes k1 k2 (map fst (Counter.of_list ws)) ->
  (first_index k1 ws < first_index k2 ws)%nat.
Proof.
  induction ws as [|w ws IH] using rev_ind; [simpl; tauto|].
  rewrite of_list_snoc, add_keys.
  destruct (PyStr.mem w (map fst (Counter.of_list ws))) eqn:E; intros H.
  - pose proof (precedes_in_l _ _ _ H) as H1.
    pose proof (precedes_in_r _ _ _ H) as H2.
    rewrite keys_of_list in H1, H2.
    destruct (first_index_app_in k1 ws [w] H1) as [-> _].
    destruct (first_index_app_in k2 ws [w] H2) as [-> _].
    auto.
  - apply precedes_snoc in H. destruct H as [H|[-> H]].
    + pose proof (precedes_in_l _ _ _ H) as H1.
      pose proof (precedes_in_r _ _ _ H) as H2.
      rewrite keys_of_list in H1, H2.
      destruct (first_index_app_in k1 ws [w] H1) as [-> _].
      destruct (first_index_app_in k2 ws [w] H2) as [-> _].
      auto.
    + rewrite keys_of_list in H.
      destruct (first_index_app_in k1 ws [w] H) as [-> Hlt].
      rewrite first_index_app_fresh; auto.
      rewrite <- keys_of_list, <- mem_In. congruence.
Qed.

Lemma of_list_in k n ws :
  In (k, n) (Counter.of_list ws) <-> In k ws /\ n = occurrences k ws.
Proof.
  split.
  - intros H. split.
    + apply keys_of_list. change k with (fst (k, n)). now apply in_map.
    + rewrite <- get_of_list. symmetry. apply get_in; auto using keys_nodup.
  - intros [H ->]. apply keys_of_list in H. apply in_map_iff in H.
    destruct H as ([k' n'] & E & H). simpl in E. subst k'.
    replace (occurrences k ws) with n'; auto.
    rewrite <- get_of_list. symmetry. apply get_in; auto using keys_nodup.
Qed.

(* ------------------------------------------------------------------ *)
(** ** The ranking: a stable sort by descending count *)
(* ------------------------------------------------------------------ *)

Lemma insert_desc_perm x l : Permutation (Counter.insert_desc x l) (x :: l).
Proof.
  induction l as [|y l IH]; simpl; [reflexivity|].
  destruct (snd y <=? snd x)%nat; [reflexivity|].
  rewrite IH. apply perm_swap.
Qed.

Lemma sort_desc_perm l : Permutation (Counter.sort_desc l) l.
Proof.
  induction l as [|x l IH]; simpl; [reflexivity|].
  rewrite insert_desc_perm. now constructor.
Qed.

Lemma insert_desc_sorted x l :
  StronglySorted count_ge l -> StronglySorted count_ge (Counter.insert_desc x l).
Proof.
  induction l as [|y l IH]; simpl; intros Hs.
  - repeat constructor.
  - inversion Hs as [|? ? Hs' Hall]; subst.
    destruct (Nat.leb_spec (snd y) (snd x)) as [Hle|Hlt].
    + constructor; auto. constructor; auto.
      eapply Forall_impl; [|exact Hall]. unfold count_ge. intros; lia.
    + constructor; auto.
      eapply Permutation_Forall; [symmetry; apply insert_desc_perm|].
      constructor; auto. unfold count_ge. lia.
Qed.

Lemma sort_desc_sorted l : StronglySorted count_ge (Counter.sort_desc l).
Proof.
  induction l as [|x l IH]; simpl; [constructor|].
  now apply insert_desc_sorted.
Qed.

Lemma insert_desc_precedes p q x l :
  precedes p q (Counter.insert_desc x l) ->
  precedes p q l \/ (p = x /\ In q l) \/ (q = x /\ In p l /\ (snd x < snd p)%nat).
Proof.
  induction l as [|y l IH]; simpl.
  - intros [[_ []]|[]].
  - destruct (Nat.leb_spec (snd y) (snd x)) as [Hle|Hlt]; simpl.
    + intros [[-> H]|H]; auto.
    + intros [[-> H]|H].
      * apply (Permutation_in _ (insert_desc_perm x l)) in H.
        destruct H as [<-|H]; auto.
        right; right. auto.
      * destruct (IH H) as [H'|[[-> H']|(-> & H' & Hlt')]]; auto.
        right; right. auto.
Qed.

(** Items of equal count leave the sort in the order they entered it. *)
Lemma sort_desc_stable p q l :
  precedes p q (Counter.sort_desc l) -> snd p = snd q -> precedes p q l.
Proof.
  intros H E. induction l as [|x l IH]; simpl in *; [tauto|].
  apply insert_desc_precedes in H.
  destruct H as [H|[[-> H]|(-> & _ & Hlt)]]; auto.
  - left. split; auto. apply (Permutation_in _ (sort_desc_perm l)); auto.
  - lia.
Qed.

Lemma most_common_length n c :
  List.length (Counter.most_common n c) = Nat.min n (List.length c).
Proof.
  unfold Counter.most_common.
  now rewrite length_firstn, (Permutation_length (sort_desc_perm c)).
Qed.

Lemma most_common_in x n c : In x (Counter.most_common n c) -> In x c.
Proof.
  intros H. apply In_firstn_in in H.
  now apply (Permutation_in _ (sort_desc_perm c)).
Qed.

Lemma most_common_sorted n c : StronglySorted count_ge (Counter.most_common n c).
Proof.
  unfold Counter.most_common.
  pose proof (sort_desc_sorted c) as Hs.
  rewrite <- (firstn_skipn n (Counter.sort_desc c)) in Hs.
  generalize dependent (skipn n (Counter.sort_desc c)).
  induction (firstn n (Counter.sort_desc c)) as [|a l IH]; intros rest Hs.
  - constructor.
  - simpl in Hs. inversion Hs as [|? ? Hs' Hall]; subst.
    constructor; eauto.
    apply Forall_app in Hall. tauto.
Qed.

Lemma most_common_stable p q n c :
  precedes p q (Counter.most_common n c) -> snd p = snd q -> precedes p q c.
Proof.
  intros H E. apply sort_desc_stable; auto.
  eapply precedes_firstn; eauto.
Qed.

(** An entry the ranking leaves out has no larger count than one it keeps,
    and if the counts are equal it entered the counter later. *)
Lemma most_common_cut x y n c :
  In x (Counter.most_common n c) -> In y c -> ~ In y (Counter.most_common n c) ->
  count_ge x y /\ (snd x = snd y -> precedes x y c).
Proof.
  unfold Counter.most_common. intros Hx Hy Hny.
  apply (Permutation_in _ (Permutation_sym (sort_desc_perm c))) in Hy.
  rewrite <- (firstn_skipn n (Counter.sort_desc c)) in Hy.
  apply in_app_or in Hy. destruct Hy as [Hy|Hy]; [contradiction|].
  split.
  - apply (sorted_app count_ge x y (firstn n (Counter.sort_desc c))
                      (skipn n (Counter.sort_desc c))); auto.
    rewrite firstn_skipn. apply sort_desc_sorted.
  - intros E. apply sort_desc_stable; auto.
    rewrite <- (firstn_skipn n (Counter.sort_desc c)).
    now apply precedes_app.
Qed.

Lemma of_list_nonempty w ws : In w ws -> Counter.of_list ws <> [].
Proof.
  intros H E. apply keys_of_list in H. now rewrite E in H.
Qed.

Lemma topic_words_in tb corpus w :
  In w (tb_words tb corpus) ->
  tb_isalpha tb w = true ->
  PyStr.mem (tb_lower tb w) stopwords = false ->
  In (tb_lower tb w) (topic_words tb corpus).
Proof.
  intros Hin Ha Hs. unfold topic_words.
  apply in_map, filter_In. split; auto.
  now rewrite Ha, Hs.
Qed.

(** C1. Whenever the corpus has an alphabetic token outside the stopword
    set, the top-topics list of the fallback builder has between one and
    five entries, its counts are the frequencies of its tokens and descend,
    and of two entries with the same count the one whose token was met
    first in the corpus comes first.  A token left out has no larger count
    than a listed one and, at equal count, was met later. *)
Theorem top_topics_ranked (tb : TextBlob) (corpus : string) :
  (exists w, In w (tb_words tb corpus)
             /\ tb_isalpha tb w = true
             /\ PyStr.mem (tb_lower tb w) stopwords = false) ->
  let ws := topic_words tb corpus in
  let top := top_topics tb corpus in
  (1 <= List.length top <= 5)%nat
  /\ StronglySorted count_ge top
  /\ (forall t c, In (t, c) top -> c = occurrences t ws /\ (1 <= c)%nat)
  /\ (forall i j t1 t2 c,
        (i < j)%nat ->
        nth_error top i = Some (t1, c) ->
        nth_error top j = Some (t2, c) ->
        (first_index t1 ws < first_index t2 ws)%nat)
  /\ (forall t c t',
        In (t, c) top -> In t' ws -> ~ In t' (map fst top) ->
        (occurrences t' ws <= c)%nat
        /\ (occurrences t' ws = c -> (first_index t ws < first_index t' ws)%nat)).
Proof.
  intros (w & Hin & Ha & Hs) ws top.
  assert (Hw : In (tb_lower tb w) ws) by now apply topic_words_in.
  assert (Hcount : forall t c, In (t, c) top -> c = occurrences t ws /\ In t ws).
  { intros t c H. apply most_common_in in H. apply of_list_in in H. tauto. }
  split; [|split; [|split; [|split]]].
  - unfold top, top_topics. rewrite most_common_length. fold ws.
    pose proof (of_list_nonempty _ _ Hw) as Hne.
    destruct (Counter.of_list ws) as [|x l]; [congruence|].
    cbn [List.length]. lia.
  - apply most_common_sorted.
  - intros t c H. destruct (Hcount t c H) as [Hc Hk].
    split; [exact Hc|].
    unfold occurrences in Hc.
    apply (count_occ_In string_dec) in Hk. lia.
  - intros i j t1 t2 c Hij Hi Hj.
    apply keys_order.
    apply (precedes_map fst (t1, c) (t2, c)).
    apply (most_common_stable _ _ 5); [|reflexivity].
    eapply precedes_nth; eauto.
  - intros t c t' Htop Hws Hout.
    destruct (most_common_cut (t, c) (t', occurrences t' ws) 5
                (Counter.of_list ws)) as [Hge Hpre].
    + exact Htop.
    + now apply of_list_in.
    + intros Hc. apply Hout. change t' with (fst (t', occurrences t' ws)).
      now apply in_map.
    + split; [exact Hge|]. intros E.
      apply keys_order.
      apply (precedes_map fst (t, c) (t', occurrences t' ws)).
      apply Hpre. simpl. congruence.
Qed.

Lemma top_topics_ranked_witness :
  let corpus := combined [Sample.post "I love hiking and climbing"]
                         [Sample.comment "Climbing is great exercise"] in
  let ws := topic_words Sample.analyzer corpus in
  let top := top_topics Sample.analyzer corpus in
  top = [("climbing", 2); ("love", 1); ("hiking", 1); ("great", 1); ("exercise", 1)]%nat
  /\ (1 <= List.length top <= 5)%nat
  /\ StronglySorted count_ge top
  /\ (forall t c, In (t, c) top -> c = occurrences t ws /\ (1 <= c)%nat)
  /\ (forall i j t1 t2 c,
        (i < j)%nat ->
        nth_error top i = Some (t1, c) ->
        nth_error top j = Some (t2, c) ->
        (first_index t1 ws < first_index t2 ws)%nat)
  /\ (forall t c t',
        In (t, c) top -> In t' ws -> ~ In t' (map fst top) ->
        (occurrences t' ws <= c)%nat
        /\ (occurrences t' ws = c -> (first_index t ws < first_index t' ws)%nat)).
Proof.
  split; [reflexivity|].
  apply (top_topics_ranked Sample.analyzer).
  exists "love". repeat split; vm_compute; auto.
Defined.

(* ------------------------------------------------------------------ *)
(** ** Order of the items *)
(* ------------------------------------------------------------------ *)

Lemma of_list_perm ws ws' :
  Permutation ws ws' -> Permutation (Counter.of_list ws) (Counter.of_list ws').
Proof.
  intros HP. apply NoDup_Permutation.
  - eapply NoDup_map_inv, keys_nodup.
  - eapply NoDup_map_inv, keys_nodup.
  - intros [k n]. rewrite !of_list_in. unfold occurrences.
    rewrite (Permutation_count_occ string_dec ws ws') in HP.
    rewrite (HP k). split; intros [H E]; split; auto.
    + apply (count_occ_In string_dec). rewrite <- HP.
      now apply (count_occ_In string_dec).
    + apply (count_occ_In string_dec). rewrite HP.
      now apply (count_occ_In string_dec).
Qed.

Lemma descending_unique (l l' : list nat) :
  StronglySorted ge l -> StronglySorted ge l' -> Permutation l l' -> l = l'.
Proof.
  revert l'. induction l as [|a l IH]; intros l' Hs Hs' HP.
  - apply Permutation_nil in HP. now subst.
  - destruct l' as [|a' l'].
    + symmetry in HP. apply Permutation_nil in HP. discriminate.
    + inversion Hs as [|? ? Hs1 Ha]; subst.
      inversion Hs' as [|? ? Hs1' Ha']; subst.
      assert (E : a = a').
      { assert (H1 : In a (a' :: l')) by (apply (Permutation_in _ HP); now left).
        assert (H2 : In a' (a :: l))
          by (apply (Permutation_in _ (Permutation_sym HP)); now left).
        rewrite Forall_forall in Ha, Ha'.
        destruct H1 as [H1|H1]; [now subst|].
        destruct H2 as [H2|H2]; [now subst|].
        specialize (Ha _ H2). specialize (Ha' _ H1). lia. }
      subst a'. f_equal. apply IH; auto.
      eapply Permutation_cons_inv; eauto.
Qed.

Lemma sorted_counts (l : Counter.t) :
  StronglySorted count_ge l -> StronglySorted ge (map snd l).
Proof.
  induction 1 as [|a l Hs IH Ha]; simpl; constructor; auto.
  rewrite Forall_map. eapply Forall_impl; [|exact Ha].
  unfold count_ge. intros; lia.
Qed.

(** The counts of the ranking depend on the multiset of items only. *)
Lemma most_common_counts_perm n c c' :
  Permutation c c' ->
  map snd (Counter.most_common n c) = map snd (Counter.most_common n c').
Proof.
  intros HP. unfold Counter.most_common. rewrite <- !firstn_map. f_equal.
  apply descending_unique; auto using sorted_counts, sort_desc_sorted.
  apply Permutation_map.
  rewrite (sort_desc_perm c), (sort_desc_perm c'). exact HP.
Qed.

Lemma concat_perm {A} (ls ls' : list (list A)) :
  Permutation ls ls' -> Permutation (List.concat ls) (List.concat ls').
Proof.
  induction 1; simpl; auto.
  - now apply Permutation_app_head.
  - rewrite !app_assoc. apply Permutation_app_tail, Permutation_app_comm.
  - etransitivity; eauto.
Qed.

Lemma filter_perm {A} (f : A -> bool) (l l' : list A) :
  Permutation l l' -> Permutation (filter f l) (filter f l').
Proof.
  induction 1; simpl; auto.
  - destruct (f x); auto.
  - destruct (f x), (f y); auto. apply perm_swap.
  - etransitivity; eauto.
Qed.

(** The sample tokenizer cuts the joined corpus item by item. *)
Lemma split_by_nonnil sep s : Sample.split_by sep s <> [].
Proof.
  destruct s as [|c s]; simpl; [discriminate|].
  destruct (sep c); [discriminate|].
  destruct (Sample.split_by sep s); discriminate.
Qed.

Lemma split_by_app sep a c b :
  sep c = true ->
  Sample.split_by sep (a ++ String c b) =
  (Sample.split_by sep a ++ Sample.split_by sep b)%list.
Proof.
  intros Hc. induction a as [|x a IH]; simpl.
  - now rewrite Hc.
  - destruct (sep x); [now rewrite IH|].
    rewrite IH.
    pose proof (split_by_nonnil sep a) as Hn.
    destruct (Sample.split_by sep a); [congruence|reflexivity].
Qed.

Lemma sample_words_join texts :
  Sample.words (PyStr.join " " texts) = List.concat (map Sample.words texts).
Proof.
  induction texts as [|t texts IH]; [reflexivity|].
  destruct texts as [|t' texts].
  - simpl. now rewrite app_nil_r.
  - change (PyStr.join " " (t :: t' :: texts))
      with (t ++ String " " (PyStr.join " " (t' :: texts))).
    unfold Sample.words at 1. rewrite split_by_app by reflexivity.
    rewrite filter_app. fold (Sample.words t).
    fold (Sample.words (PyStr.join " " (t' :: texts))).
    now rewrite IH.
Qed.

(** C2, counterexample. Two posts in either order: the two top topics
    have the same count and change places with the items. *)
Lemma item_order_matters :
  let a := Sample.post "apple" in
  let b := Sample.post "banana" in
  Permutation ([a; b] ++ []) ([b; a] ++ [])
  /\ build_persona_simple Sample.analyzer [a; b] []
     <> build_persona_simple Sample.analyzer [b; a] [].
Proof.
  split.
  - apply perm_swap.
  - vm_compute. discriminate.
Qed.

(** C2, amended. With a tokenizer that cuts the joined corpus item by item,
    a permutation of [posts ++ comments] leaves the frequency of every
    token, the number of top topics and the sequence of their counts
    unchanged. *)
Theorem item_order_counts (tb : TextBlob)
    (posts comments posts' comments' : list ContentItem) :
  (forall texts, tb_words tb (PyStr.join " " texts) = List.concat (map (tb_words tb) texts)) ->
  Permutation (posts ++ comments) (posts' ++ comments') ->
  let ws := topic_words tb (combined posts comments) in
  let ws' := topic_words tb (combined posts' comments') in
  let top := top_topics tb (combined posts comments) in
  let top' := top_topics tb (combined posts' comments') in
  (forall t, occurrences t ws = occurrences t ws')
  /\ List.length top = List.length top'
  /\ map snd top = map snd top'.
Proof.
  intros Hlocal HP ws ws' top top'.
  assert (Hws : Permutation ws ws').
  { unfold ws, ws', topic_words, combined. rewrite !Hlocal.
    apply Permutation_map, filter_perm, concat_perm.
    now do 2 apply Permutation_map. }
  assert (Hc : map snd top = map snd top').
  { apply most_common_counts_perm, of_list_perm, Hws. }
  repeat split; auto.
  - intros t. unfold occurrences.
    now apply (Permutation_count_occ string_dec).
  - rewrite <- (length_map snd top), Hc. apply length_map.
Qed.

Lemma item_order_counts_witness :
  let a := Sample.post "apple" in
  let b := Sample.post "banana" in
  let top := top_topics Sample.analyzer (combined [a; b] []) in
  let top' := top_topics Sample.analyzer (combined [b; a] []) in
  map snd top = map snd top' /\ top <> top'.
Proof.
  split.
  - apply (item_order_counts Sample.analyzer
             [Sample.post "apple"; Sample.post "banana"] []
             [Sample.post "banana"; Sample.post "apple"] []).
    + exact sample_words_join.
    + apply perm_swap.
  - vm_compute. discriminate.
Defined.

(* ------------------------------------------------------------------ *)
(** ** Strings: concatenation, joins, substrings *)
(* ------------------------------------------------------------------ *)

Lemma append_assoc (a b c : string) : (a ++ b) ++ c = a ++ b ++ c.
Proof. induction a as [|x a IH]; simpl; [reflexivity|now rewrite IH]. Qed.

Lemma append_nil_r (a : string) : a ++ "" = a.
Proof. induction a as [|x a IH]; simpl; [reflexivity|now rewrite IH]. Qed.

Lemma append_length (a b : string) :
  String.length (a ++ b) = (String.length a + String.length b)%nat.
Proof. induction a as [|x a IH]; simpl; [reflexivity|now rewrite IH]. Qed.

Lemma forallb_str_app p (a b : string) :
  PyStr.forallb_str p (a ++ b) = PyStr.forallb_str p a && PyStr.forallb_str p b.
Proof.
  induction a as [|x a IH]; simpl; [reflexivity|].
  now rewrite IH, andb_assoc.
Qed.

Lemma join_app sep (xs ys : list string) :
  xs <> [] -> ys <> [] ->
  PyStr.join sep (xs ++ ys)%list = PyStr.join sep xs ++ sep ++ PyStr.join sep ys.
Proof.
  intros Hx Hy. induction xs as [|x xs IH]; [congruence|].
  destruct xs as [|x' xs].
  - simpl. destruct ys; [congruence|reflexivity].
  - change (PyStr.join sep ((x :: x' :: xs) ++ ys)%list)
      with (x ++ sep ++ PyStr.join sep ((x' :: xs) ++ ys)%list).
    rewrite IH by discriminate.
    change (PyStr.join sep (x :: x' :: xs))
      with (x ++ sep ++ PyStr.join sep (x' :: xs)).
    now rewrite !append_assoc.
Qed.

Lemma prefix_spec (p s : string) :
  String.prefix p s = true <-> exists post, s = p ++ post.
Proof.
  revert s. induction p as [|x p IH]; intros [|y s]; simpl.
  - split; [intros _; now exists ""|reflexivity].
  - split; [intros _; now exists (String y s)|reflexivity].
  - split; [discriminate|]. intros (post & E). discriminate.
  - destruct (ascii_dec x y) as [->|Hne].
    + rewrite IH. split; intros (post & E); exists post; congruence.
    + split; [discriminate|]. intros (post & E). congruence.
Qed.

(** The executable test [sub in s] decides [substring]. *)
Lemma contains_spec (sub s : string) :
  PyStr.contains sub s = true <-> substring sub s.
Proof.
  unfold substring. induction s as [|y s IH].
  - cbn [PyStr.contains]. rewrite orb_false_r, prefix_spec. split.
    + intros (post & E). exists "", post. exact E.
    + intros (pre & post & E). destruct pre; [eauto|discriminate].
  - cbn [PyStr.contains]. rewrite orb_true_iff, IH, prefix_spec. split.
    + intros [(post & E)|(pre & post & E)].
      * exists "", post. exact E.
      * exists (String y pre), post. simpl. now rewrite E.
    + intros (pre & post & E). destruct pre as [|x pre].
      * left. eauto.
      * right. simpl in E. inversion E. eauto.
Qed.

Lemma not_substring (sub s : string) :
  PyStr.contains sub s = false -> ~ substring sub s.
Proof. intros E H. apply contains_spec in H. congruence. Qed.

(** A string all of whose characters fail [p] has no substring with a
    character that satisfies it. *)
Lemma substring_forallb p (sub s : string) :
  substring sub s -> PyStr.forallb_str p s = true -> PyStr.forallb_str p sub = true.
Proof.
  intros (pre & post & ->). rewrite !forallb_str_app, !andb_true_iff. tauto.
Qed.

(* ------------------------------------------------------------------ *)
(** ** Rendering numbers *)
(* ------------------------------------------------------------------ *)

Lemma string_of_uint_digits (u : Decimal.uint) :
  PyStr.forallb_str PyStr.is_digit (NilEmpty.string_of_uint u) = true.
Proof. induction u; simpl; auto. Qed.

Lemma str_N_digits (n : N) :
  PyStr.forallb_str PyStr.is_digit (PyStr.str_N n) = true.
Proof. apply string_of_uint_digits. Qed.

Lemma str_N_nonempty (n : N) : PyStr.str_N n <> "".
Proof.
  unfold PyStr.str_N. destruct n as [|p]; [discriminate|].
  unfold N.to_uint.
  pose proof (DecimalPos.Unsigned.to_uint_nonnil p) as H.
  destruct (Pos.to_uint p); cbn [NilEmpty.string_of_uint]; congruence.
Qed.

Lemma digit_char_is_digit (n : Z) :
  PyStr.is_digit (PyFmt.digit_char (n mod 10)) = true.
Proof.
  pose proof (Z.mod_pos_bound n 10 ltac:(lia)) as H.
  generalize dependent (n mod 10)%Z. intros m H.
  assert (E : (m = 0 \/ m = 1 \/ m = 2 \/ m = 3
               \/ m = 4 \/ m = 5 \/ m = 6 \/ m = 7
               \/ m = 8 \/ m = 9)%Z) by lia.
  repeat (destruct E as [E|E]; [rewrite E; reflexivity|]).
  rewrite E; reflexivity.
Qed.

Lemma digits_fixed_length d : forall n, String.length (PyFmt.digits_fixed d n) = d.
Proof.
  induction d as [|d IH]; intros n; simpl; [reflexivity|].
  rewrite append_length, IH. simpl. lia.
Qed.

Lemma digits_fixed_digits d : forall n,
  PyStr.forallb_str PyStr.is_digit (PyFmt.digits_fixed d n) = true.
Proof.
  induction d as [|d IH]; intros n; cbn [PyFmt.digits_fixed]; [reflexivity|].
  rewrite forallb_str_app, IH. cbn [PyStr.forallb_str andb].
  now rewrite digit_char_is_digit.
Qed.

(** [format(x, ".<d>f")] with [d > 0] has exactly [d] digits after the point. *)
Lemma format_fixed_decimals d x : d <> 0%nat -> fixed_decimals d (PyFmt.format_fixed d x).
Proof.
  intros Hd. unfold PyFmt.format_fixed, fixed_decimals.
  destruct d as [|d]; [congruence|].
  set (scale := (10 ^ Z.of_nat (S d))%Z).
  set (r := PyFmt.round_half_even _ _).
  exists (if (Qnum x <? 0)%Z then "-" else ""),
         (PyStr.str_N (Z.to_N (r / scale))),
         (PyFmt.digits_fixed (S d) (r mod scale)).
  split; [reflexivity|].
  split; [destruct (Qnum x <? 0)%Z; auto|].
  split; [apply str_N_nonempty|].
  split; [apply str_N_digits|].
  split; [apply digits_fixed_length|apply digits_fixed_digits].
Qed.

Lemma forallb_str_impl (p q : ascii -> bool) (s : string) :
  (forall c, p c = true -> q c = true) ->
  PyStr.forallb_str p s = true -> PyStr.forallb_str q s = true.
Proof.
  intros Hpq. induction s as [|c s IH]; simpl; [reflexivity|].
  rewrite !andb_true_iff. intros [Hc Hs]. auto.
Qed.

Lemma fixed_decimals_numeric d s :
  fixed_decimals d s -> PyStr.forallb_str numeric_char s = true.
Proof.
  intros (sign & ip & fp & -> & Hsign & _ & Hip & _ & Hfp).
  assert (Hd : forall c, PyStr.is_digit c = true -> numeric_char c = true).
  { intros c Hc. unfold numeric_char. now rewrite Hc. }
  rewrite !forallb_str_app.
  rewrite (forallb_str_impl _ _ _ Hd Hip), (forallb_str_impl _ _ _ Hd Hfp).
  destruct Hsign as [->| ->]; reflexivity.
Qed.

(* ------------------------------------------------------------------ *)
(** ** The rendered persona *)
(* ------------------------------------------------------------------ *)

Lemma style_lines_join p s a :
  PyStr.join PyStr.nl (style_lines p s a) =
  PyStr.nl ++ "**Communication Style & Tone:**" ++ PyStr.nl
    ++ "- Sentiment polarity: " ++ PyFmt.format_fixed 2 p
    ++ ", subjectivity: " ++ PyFmt.format_fixed 2 s ++ PyStr.nl
    ++ "- Average sentence length: " ++ PyFmt.format_fixed 1 a
    ++ " words" ++ PyStr.nl.
Proof.
  unfold style_lines.
  generalize (PyFmt.format_fixed 2 p) (PyFmt.format_fixed 2 s)
             (PyFmt.format_fixed 1 a).
  intros P S A. cbn [PyStr.join].
  rewrite !append_assoc. reflexivity.
Qed.

(** The output is the three blocks, one after the other. *)
Lemma build_persona_simple_blocks tb posts comments :
  let corpus := combined posts comments in
  let top := top_topics tb corpus in
  build_persona_simple tb posts comments =
  PyStr.join PyStr.nl (summary_lines top (tb_polarity tb corpus)) ++ PyStr.nl
    ++ PyStr.join PyStr.nl (interest_lines top) ++ PyStr.nl
    ++ PyStr.join PyStr.nl
         (style_lines (tb_polarity tb corpus) (tb_subjectivity tb corpus)
                      (avg_len tb corpus)).
Proof.
  intros corpus top. unfold build_persona_simple, persona_lines.
  fold corpus. fold top.
  rewrite join_app; [|discriminate|discriminate].
  rewrite join_app; [reflexivity|discriminate|discriminate].
Qed.

Lemma top_topics_nil tb corpus :
  topic_words tb corpus = [] -> top_topics tb corpus = [].
Proof. unfold top_topics. now intros ->. Qed.

(* ------------------------------------------------------------------ *)
(** ** Sentiment: the tone label and the rendered scores *)
(* ------------------------------------------------------------------ *)

Lemma Qltb_spec (a b : Q) : Qltb a b = true <-> (a < b)%Q.
Proof.
  unfold Qltb. rewrite Qlt_alt.
  destruct (Qcompare a b); split; intros H; congruence.
Qed.

Lemma tone_sign (p : Q) :
  (tone p = "positive" /\ (0 < p)%Q)
  \/ (tone p = "negative" /\ (p < 0)%Q)
  \/ (tone p = "neutral" /\ (p == 0)%Q).
Proof.
  unfold tone.
  destruct (Qltb 0 p) eqn:E1.
  - left. split; auto. now apply Qltb_spec.
  - destruct (Qltb p 0) eqn:E2.
    + right; left. split; auto. now apply Qltb_spec.
    + right; right. split; auto.
      apply Qle_antisym; apply Qnot_lt_le; intros H;
        apply Qltb_spec in H; congruence.
Qed.

Lemma round_half_even_bounds (n m k : Z) :
  (0 <= n)%Z -> (0 < m)%Z -> (n <= k * m)%Z ->
  (0 <= PyFmt.round_half_even n m <= k)%Z.
Proof.
  intros Hn Hm Hk. unfold PyFmt.round_half_even.
  pose proof (Z.div_mod n m ltac:(lia)) as Hdm.
  pose proof (Z.mod_pos_bound n m Hm) as Hr.
  assert (Hq0 : (0 <= n / m)%Z) by (apply Z.div_pos; lia).
  assert (Hqk : (n / m <= k)%Z) by (apply Z.div_le_upper_bound; lia).
  set (q := (n / m)%Z) in *. set (r := (n mod m)%Z) in *.
  destruct (Z.compare_spec (2 * r) m) as [E|E|E].
  - destruct (Z.even q); [lia|]. nia.
  - lia.
  - nia.
Qed.

(** A score in [[0,1]] is rendered between 0.00 and 1.00. *)
Lemma format_fixed_unit_abs (x : Q) :
  (-1 <= x <= 1)%Q ->
  exists u, unit_numeral u /\
    PyFmt.format_fixed 2 x = (if (Qnum x <? 0)%Z then "-" else "") ++ u.
Proof.
  intros [Hlo Hhi]. unfold PyFmt.format_fixed.
  change (10 ^ Z.of_nat 2)%Z with 100%Z.
  set (r := PyFmt.round_half_even _ _).
  assert (Hr : (0 <= r <= 100)%Z).
  { apply round_half_even_bounds; try lia.
    unfold Qle in Hlo, Hhi. simpl in Hlo, Hhi. lia. }
  assert (Hcase : (r = 100 \/ r / 100 = 0)%Z).
  { destruct (Z.eq_dec r 100); auto. right. apply Z.div_small. lia. }
  destruct Hcase as [E|E].
  - exists "1.00". split.
    + exists "00". auto.
    + rewrite E. reflexivity.
  - exists ("0." ++ PyFmt.digits_fixed 2 (r mod 100)). split.
    + exists (PyFmt.digits_fixed 2 (r mod 100)).
      split; [apply digits_fixed_length|].
      split; [apply digits_fixed_digits|auto].
    + rewrite E. reflexivity.
Qed.

Lemma summary_lines_join (top : Counter.t) (p : Q) :
  top <> [] ->
  PyStr.join PyStr.nl (summary_lines top p) =
  "**Summary:**" ++ PyStr.nl ++ "User frequently discusses "
    ++ PyStr.join ", " (map fst top) ++ ". Overall sentiment is "
    ++ tone p ++ "." ++ PyStr.nl.
Proof.
  intros Hne. destruct top as [|tc top]; [congruence|].
  unfold summary_lines. cbn [PyStr.join].
  generalize (PyStr.join ", " (map fst (tc :: top))) (tone p). intros T L.
  reflexivity.
Qed.

(* ------------------------------------------------------------------ *)
(** ** The fetcher *)
(* ------------------------------------------------------------------ *)

Lemma iterate_length {A} (l : Listing A) (limit : nat) (xs : list A) :
  iterate l limit = Ok xs -> (List.length xs <= limit)%nat.
Proof.
  unfold iterate.
  destruct (Nat.leb_spec limit (List.length (available l))) as [Hle|Hlt].
  - intros [= <-]. rewrite length_firstn. lia.
  - destruct (failure l); [discriminate|]. intros [= <-]. lia.
Qed.

(** The two ways [fetch_user_content] returns. *)
Lemma fetch_user_content_cases (r : Reddit) (username : string) (lp lc : nat) :
  (exists e,
      fetch_user_content r username lp lc
      = ([Print (msg_fetch_error username e)], (None, None))
      /\ (redditor_id r username = Raise e
          \/ iterate (submissions_new r username) lp = Raise e
          \/ iterate (comments_new r username) lc = Raise e))
  \/ (exists ps cs,
        fetch_user_content r username lp lc = ([], (Some ps, Some cs))
        /\ (List.length ps <= lp)%nat /\ (List.length cs <= lc)%nat
        /\ (exists i, redditor_id r username = Ok i)
        /\ (exists xs, iterate (submissions_new r username) lp = Ok xs)
        /\ (exists ys, iterate (comments_new r username) lc = Ok ys)).
Proof.
  unfold fetch_user_content, fetch_body, bind, msg_fetch_error.
  destruct (redditor_id r username) as [i|e]; [|left; eauto].
  destruct (iterate (submissions_new r username) lp) as [xs|e] eqn:Ex;
    [|left; eauto].
  destruct (iterate (comments_new r username) lc) as [ys|e] eqn:Ey;
    [|left; eauto].
  right. exists (map post_item xs), (map comment_item ys).
  rewrite !length_map.
  split; [reflexivity|].
  split; [eapply iterate_length; eauto|].
  split; [eapply iterate_length; eauto|].
  split; [now exists i|]. split; [now exists xs|now exists ys].
Qed.

(** C10. [fetch_user_content] returns either [(None, None)], and it does so
    exactly when one of the three API accesses raises, or two lists, the
    posts no more than [limit_posts] and the comments no more than
    [limit_comments]; it never returns one list and one [None]. *)
Theorem fetch_user_content_result (r : Reddit) (username : string)
    (limit_posts limit_comments : nat) :
  let res := snd (fetch_user_content r username limit_posts limit_comments) in
  (res = (None, None)
   \/ exists posts comments,
        res = (Some posts, Some comments)
        /\ (List.length posts <= limit_posts)%nat
        /\ (List.length comments <= limit_comments)%nat)
  /\ (res = (None, None) <->
      exists e,
        redditor_id r username = Raise e
        \/ iterate (submissions_new r username) limit_posts = Raise e
        \/ iterate (comments_new r username) limit_comments = Raise e).
Proof.
  intros res. unfold res.
  destruct (fetch_user_content_cases r username limit_posts limit_comments)
    as [(e & -> & He)|(ps & cs & -> & Hp & Hc & (i & Hi) & (xs & Hx) & (ys & Hy))];
    simpl.
  - split; [now left|]. split; eauto.
  - split; [right; eauto|]. split; [discriminate|].
    intros (e & [H|[H|H]]); congruence.
Qed.

(* ------------------------------------------------------------------ *)
(** ** Runs of the two entry points *)
(* ------------------------------------------------------------------ *)

Lemma main_openai_run (w : World) (url : string) :
  PyStr.contains "reddit.com/user/" url = true ->
  MainOpenai.main w url =
  Print (msg_fetching (username_of url))
    :: (fst (fetch_user_content (reddit w) (username_of url) 100 100)
        ++ MainOpenai.after_fetch w (username_of url)
             (snd (fetch_user_content (reddit w) (username_of url) 100 100)))%list.
Proof.
  intros H. unfold MainOpenai.main. rewrite H. cbn [negb].
  now destruct (fetch_user_content _ _ _ _).
Qed.

Lemma main_llm_only_run (w : World) (url : string) :
  PyStr.contains "reddit.com/user/" url = true ->
  MainLlmOnly.main w url =
  Print (msg_fetching (username_of url))
    :: (fst (fetch_user_content (reddit w) (username_of url) 100 100)
        ++ MainLlmOnly.after_fetch w (username_of url)
             (snd (fetch_user_content (reddit w) (username_of url) 100 100)))%list.
Proof.
  intros H. unfold MainLlmOnly.main. rewrite H. cbn [negb].
  now destruct (fetch_user_content _ _ _ _).
Qed.

Lemma fetch_error_events (r : Reddit) (username : string) (lp lc : nat) :
  snd (fetch_user_content r username lp lc) = (None, None) ->
  exists e, fst (fetch_user_content r username lp lc)
            = [Print (msg_fetch_error username e)].
Proof.
  destruct (fetch_user_content_cases r username lp lc)
    as [(e & -> & _)|(ps & cs & -> & _)]; simpl; [eauto|discriminate].
Qed.

Lemma fetch_ok_events (r : Reddit) (username : string) (lp lc : nat) ps cs :
  snd (fetch_user_content r username lp lc) = (Some ps, Some cs) ->
  fst (fetch_user_content r username lp lc) = [].
Proof.
  destruct (fetch_user_content_cases r username lp lc)
    as [(e & -> & _)|(ps' & cs' & -> & _)]; simpl; [discriminate|reflexivity].
Qed.

Lemma some_content {A} (posts comments : list A) :
  posts <> [] \/ comments <> [] ->
  negb (truthy (Some posts)) && negb (truthy (Some comments)) = false.
Proof.
  destruct posts, comments; simpl; auto; intros [H|H]; congruence.
Qed.

(** C6, counterexample. In [main_openai.py] the lines after the fetch do the
    same on an error result and on an empty result: the run of the unknown
    user, too, reports that no posts or comments were found. *)
Lemma openai_main_one_guard :
  let unknown := Sample.world Sample.reddit_unknown Sample.chat_persona in
  let silent := Sample.world Sample.reddit_silent Sample.chat_persona in
  snd (fetch_user_content (reddit unknown) "kojied" 100 100) = (None, None)
  /\ snd (fetch_user_content (reddit silent) "kojied" 100 100) = (Some [], Some [])
  /\ MainOpenai.after_fetch unknown "kojied" (None, None) = [Print msg_nothing_found]
  /\ MainOpenai.after_fetch silent "kojied" (Some [], Some []) = [Print msg_nothing_found]
  /\ MainOpenai.main unknown Sample.url =
       [Print (msg_fetching "kojied");
        Print (msg_fetch_error "kojied" "received 404 HTTP response");
        Print msg_nothing_found].
Proof. repeat split. Qed.

(** C6, amended. For a valid profile URL: on an error result the fetcher's
    error line is printed, after which [main.py] returns and
    [main_openai.py] prints its nothing-found line; on an empty but valid
    result [main.py] prints its no-content line and [main_openai.py] the
    same nothing-found line as before; in both cases neither script writes
    a file. *)
Theorem fetch_failure_and_empty_runs (w : World) (url : string) :
  PyStr.contains "reddit.com/user/" url = true ->
  let username := username_of url in
  let res := snd (fetch_user_content (reddit w) username 100 100) in
  (res = (None, None) ->
     exists e,
       MainLlmOnly.main w url =
         [Print (msg_fetching username); Print (msg_fetch_error username e)]
       /\ MainOpenai.main w url =
            [Print (msg_fetching username); Print (msg_fetch_error username e);
             Print msg_nothing_found])
  /\ (res = (Some [], Some []) ->
        MainLlmOnly.main w url =
          [Print (msg_fetching username);
           Print "[+] Fetched 0 posts and 0 comments.";
           Print (msg_no_content username)]
        /\ MainOpenai.main w url =
             [Print (msg_fetching username); Print msg_nothing_found])
  /\ (res = (None, None) \/ res = (Some [], Some []) ->
        no_write (MainLlmOnly.main w url) /\ no_write (MainOpenai.main w url)).
Proof.
  intros Hurl username res.
  assert (Herr : res = (None, None) ->
     exists e,
       MainLlmOnly.main w url =
         [Print (msg_fetching username); Print (msg_fetch_error username e)]
       /\ MainOpenai.main w url =
            [Print (msg_fetching username); Print (msg_fetch_error username e);
             Print msg_nothing_found]).
  { intros Hres. destruct (fetch_error_events _ _ _ _ Hres) as (e & He).
    exists e. rewrite main_llm_only_run, main_openai_run by assumption.
    fold username. fold res. rewrite He, Hres. split; reflexivity. }
  assert (Hempty : res = (Some [], Some []) ->
        MainLlmOnly.main w url =
          [Print (msg_fetching username);
           Print "[+] Fetched 0 posts and 0 comments.";
           Print (msg_no_content username)]
        /\ MainOpenai.main w url =
             [Print (msg_fetching username); Print msg_nothing_found]).
  { intros Hres. pose proof (fetch_ok_events _ _ _ _ _ _ Hres) as He.
    rewrite main_llm_only_run, main_openai_run by assumption.
    fold username. fold res. rewrite He, Hres. split; reflexivity. }
  split; [exact Herr|]. split; [exact Hempty|].
  intros [Hres|Hres].
  - destruct (Herr Hres) as (e & -> & ->). split; reflexivity.
  - destruct (Hempty Hres) as (-> & ->). split; reflexivity.
Qed.

Lemma fetch_failure_and_empty_runs_witness :
  no_write (MainOpenai.main (Sample.world Sample.reddit_unknown Sample.chat_persona)
                            Sample.url)
  /\ no_write (MainOpenai.main (Sample.world Sample.reddit_silent Sample.chat_persona)
                               Sample.url)
  /\ MainLlmOnly.main (Sample.world Sample.reddit_silent Sample.chat_persona) Sample.url =
       [Print (msg_fetching "kojied");
        Print "[+] Fetched 0 posts and 0 comments.";
        Print (msg_no_content "kojied")].
Proof.
  pose proof (fetch_failure_and_empty_runs
                (Sample.world Sample.reddit_unknown Sample.chat_persona)
                Sample.url eq_refl) as (_ & _ & H1).
  pose proof (fetch_failure_and_empty_runs
                (Sample.world Sample.reddit_silent Sample.chat_persona)
                Sample.url eq_refl) as (_ & H2 & H3).
  split; [apply H1; left; reflexivity|].
  split; [apply H3; right; reflexivity|].
  apply H2. reflexivity.
Defined.

(* ------------------------------------------------------------------ *)
(** ** [str.strip] *)
(* ------------------------------------------------------------------ *)

Lemma lstrip_by_spec p s :
  (exists l, s = l ++ PyStr.lstrip_by p s /\ PyStr.forallb_str p l = true)
  /\ starts_with p (PyStr.lstrip_by p s) = false.
Proof.
  induction s as [|c s [(l & E & Hl) Hs]]; simpl.
  - split; [exists ""; auto|reflexivity].
  - destruct (p c) eqn:Ec.
    + split; [|exact Hs]. exists (String c l). simpl.
      rewrite Ec, Hl. split; [congruence|reflexivity].
    + split; [exists ""; auto|exact Ec].
Qed.

Lemma rstrip_by_spec p s :
  (exists r, s = PyStr.rstrip_by p s ++ r /\ PyStr.forallb_str p r = true)
  /\ ends_with p (PyStr.rstrip_by p s) = false
  /\ (starts_with p s = false -> starts_with p (PyStr.rstrip_by p s) = false).
Proof.
  induction s as [|c s [(r & E & Hr) [He Hs]]]; cbn [PyStr.rstrip_by].
  - split; [exists ""; auto|split; auto].
  - destruct (PyStr.rstrip_by p s) as [|c' t] eqn:Et.
    + destruct (p c) eqn:Ec.
      * split; [|split; [reflexivity|]].
        -- exists (String c s). simpl. rewrite Ec. simpl in E. subst s.
           rewrite Hr. auto.
        -- simpl. congruence.
      * split; [|split; [exact Ec|intros _; exact Ec]].
        exists s. simpl in E. subst s. simpl. auto.
    + split; [|split; [exact He|intros H; exact H]].
      exists r. simpl. simpl in E. rewrite <- E. auto.
Qed.

Lemma strip_prefix_spec p : forall s r,
  PyStr.strip_prefix p s = Some r <-> s = p ++ r.
Proof.
  induction p as [|a p IH]; intros s r; simpl.
  - split; congruence.
  - destruct s as [|b s]; [split; discriminate|].
    destruct (Ascii.eqb_spec a b) as [->|Hne].
    + rewrite IH. split; congruence.
    + split; [discriminate|]. intros [= E _]. congruence.
Qed.

Lemma drop_first_some ws s r :
  PyStr.drop_first ws s = Some r -> exists w, In w ws /\ s = w ++ r.
Proof.
  induction ws as [|w ws IH]; simpl; [discriminate|].
  destruct (PyStr.strip_prefix w s) as [r'|] eqn:E.
  - intros [= <-]. exists w. split; [now left|]. now apply strip_prefix_spec.
  - intros H. destruct (IH H) as (w' & Hw & Es). exists w'. auto.
Qed.

Lemma drop_first_none ws s :
  PyStr.drop_first ws s = None -> forall w rest, In w ws -> s <> w ++ rest.
Proof.
  induction ws as [|w ws IH]; simpl; [tauto|].
  destruct (PyStr.strip_prefix w s) as [r'|] eqn:E; [discriminate|].
  intros H w' rest [<-|Hw] Es.
  - apply strip_prefix_spec in Es. congruence.
  - exact (IH H w' rest Hw Es).
Qed.

Lemma whitespace_nonempty w : In w PyStr.whitespace -> w <> "".
Proof.
  intros H ->. apply mem_In in H. vm_compute in H. discriminate.
Qed.

Lemma not_blank_start s : PyStr.drop_first PyStr.whitespace s = None <-> ~ starts_blank s.
Proof.
  split.
  - intros H (w & rest & Hw & E). exact (drop_first_none _ _ H w rest Hw E).
  - intros H. destruct (PyStr.drop_first PyStr.whitespace s) as [r|] eqn:E; [|reflexivity].
    elim H. destruct (drop_first_some _ _ _ E) as (w & Hw & Es). now exists w, r.
Qed.

Lemma lstrip_fuel_spec n : forall s,
  (String.length s <= n)%nat ->
  (exists l, blank l /\ s = l ++ PyStr.lstrip_fuel n s)
  /\ ~ starts_blank (PyStr.lstrip_fuel n s).
Proof.
  induction n as [|n IH]; intros s Hlen; cbn [PyStr.lstrip_fuel].
  - destruct s; [|simpl in Hlen; lia].
    split; [exists ""; split; [constructor|reflexivity]|].
    apply not_blank_start. reflexivity.
  - destruct (PyStr.drop_first PyStr.whitespace s) as [r|] eqn:E.
    + destruct (drop_first_some _ _ _ E) as (w & Hw & ->).
      pose proof (whitespace_nonempty w Hw) as Hne.
      assert (Hr : (String.length r <= n)%nat).
      { rewrite append_length in Hlen. destruct w; [congruence|simpl in Hlen; lia]. }
      destruct (IH r Hr) as [(l & Hl & El) Hs].
      split; [|exact Hs].
      exists (w ++ l). split; [now constructor|].
      rewrite append_assoc. now rewrite <- El.
    + split; [exists ""; split; [constructor|reflexivity]|].
      now apply not_blank_start.
Qed.

Lemma lstrip_spec s :
  (exists l, blank l /\ s = l ++ PyStr.lstrip s) /\ ~ starts_blank (PyStr.lstrip s).
Proof. apply lstrip_fuel_spec. lia. Qed.

Lemma append_nil_inv (a b : string) : a ++ b = "" -> a = "" /\ b = "".
Proof. destruct a; simpl; [auto|discriminate]. Qed.

Lemma rstrip_spec s :
  (exists r, blank r /\ s = PyStr.rstrip s ++ r)
  /\ ~ ends_blank (PyStr.rstrip s)
  /\ (~ starts_blank s -> ~ starts_blank (PyStr.rstrip s)).
Proof.
  induction s as [|c s [(r & Hr & Es) [He Hs]]]; cbn [PyStr.rstrip].
  - split; [exists ""; split; [constructor|reflexivity]|].
    split; [|tauto].
    intros (front & w & Hw & E). symmetry in E. apply append_nil_inv in E.
    destruct E as [_ ->]. now apply (whitespace_nonempty "").
  - change (existsb (String.eqb (String c (PyStr.rstrip s))) PyStr.whitespace)
      with (PyStr.mem (String c (PyStr.rstrip s)) PyStr.whitespace).
    destruct (PyStr.mem (String c (PyStr.rstrip s)) PyStr.whitespace) eqn:Em.
    + apply mem_In in Em. split; [|split].
      * exists (String c (PyStr.rstrip s) ++ r). split; [now constructor|].
        simpl. now rewrite <- Es.
      * intros (front & w & Hw & E). symmetry in E. apply append_nil_inv in E.
        destruct E as [_ ->]. now apply (whitespace_nonempty "").
      * intros _ (w & rest & Hw & E). symmetry in E. apply append_nil_inv in E.
        destruct E as [-> _]. now apply (whitespace_nonempty "").
    + assert (Hn : ~ In (String c (PyStr.rstrip s)) PyStr.whitespace).
      { rewrite <- mem_In. congruence. }
      split; [|split].
      * exists r. split; [exact Hr|]. simpl. now rewrite <- Es.
      * intros (front & w & Hw & E). destruct front as [|c' front].
        -- simpl in E. subst w. contradiction.
        -- simpl in E. injection E as _ E. apply He. now exists front, w.
      * intros Hstart (w & rest & Hw & E). apply Hstart.
        exists w, (rest ++ r). split; [exact Hw|].
        rewrite <- append_assoc, <- E. simpl. now rewrite <- Es.
Qed.

Lemma strip_spec s : trimmed_of s (PyStr.strip s).
Proof.
  unfold trimmed_of, PyStr.strip.
  destruct (lstrip_spec s) as [(l & Hl & El) Hs].
  destruct (rstrip_spec (PyStr.lstrip s)) as [(r & Hr & Er) [He Hs']].
  split; [|split; auto].
  exists l, r. split; [|auto]. now rewrite <- Er.
Qed.

(** White space outside ASCII is stripped too: a no-break space (U+00A0)
    before and an em space (U+2003) after a text, and a text of a
    no-break space only. *)
Lemma strip_unicode_sample :
  let nbsp := PyStr.bytes [194; 160]%nat in
  let emsp := PyStr.bytes [226; 128; 131]%nat in
  PyStr.strip (nbsp ++ " persona " ++ PyStr.nl ++ emsp) = "persona"
  /\ PyStr.strip nbsp = ""
  /\ PyStr.strip ("caf" ++ PyStr.bytes [195; 169]%nat ++ " ")
     = "caf" ++ PyStr.bytes [195; 169]%nat.
Proof. split; [|split]; vm_compute; reflexivity. Qed.



Lemma strip_nonempty_truthy s :
  PyStr.strip s <> "" -> truthy_str (Some (PyStr.strip s)) = true.
Proof. destruct (PyStr.strip s); simpl; congruence. Qed.

(* ------------------------------------------------------------------ *)
(** ** Generation, fallback and the output file *)
(* ------------------------------------------------------------------ *)




(** C8, counterexample. The model answers with white space only: the call
    succeeded and the completion is not empty, yet [main_openai.py] writes
    the fallback text, not the trimmed completion, and [main.py] writes
    nothing. *)
Lemma blank_completion_not_written :
  let w := Sample.world Sample.reddit_active Sample.chat_blank in
  exists posts comments content,
    snd (fetch_user_content (reddit w) "kojied" 100 100) = (Some posts, Some comments)
    /\ chat w "kojied" posts comments = Ok content
    /\ content <> ""
    /\ PyStr.strip content = ""
    /\ written (MainOpenai.main w Sample.url)
       = [("outputs/kojied_persona.txt", build_persona_simple (blob w) posts comments)]
    /\ build_persona_simple (blob w) posts comments <> PyStr.strip content
    /\ written (MainLlmOnly.main w Sample.url) = [].
Proof.
  do 3 eexists.
  split; [reflexivity|]. split; [reflexivity|].
  split; [discriminate|]. split; [reflexivity|].
  split; [reflexivity|]. split; [vm_compute; discriminate|reflexivity].
Qed.

(** C8, amended. For a valid URL and fetched content that is not empty,
    when the model call returns a completion that is not empty after
    trimming, both scripts write exactly one file,
    [outputs/<username>_persona.txt], and its content is the completion
    without its leading and trailing white space. *)
Theorem completion_written_verbatim (w : World) (url : string)
    (posts comments : list ContentItem) (content : string) :
  PyStr.contains "reddit.com/user/" url = true ->
  let username := username_of url in
  snd (fetch_user_content (reddit w) username 100 100) = (Some posts, Some comments) ->
  posts <> [] \/ comments <> [] ->
  chat w username posts comments = Ok content ->
  PyStr.strip content <> "" ->
  written (MainOpenai.main w url)
    = [("outputs/" ++ username ++ "_persona.txt", PyStr.strip content)]
  /\ written (MainLlmOnly.main w url)
     = [("outputs/" ++ username ++ "_persona.txt", PyStr.strip content)]
  /\ trimmed_of content (PyStr.strip content).
Proof.
  intros Hurl username Hres Hsome Hchat Hne.
  pose proof (fetch_ok_events _ _ _ _ _ _ Hres) as Hev.
  pose proof (some_content posts comments Hsome) as Hguard.
  pose proof (strip_nonempty_truthy content Hne) as Htruthy.
  rewrite main_openai_run, main_llm_only_run by assumption.
  fold username. rewrite Hev, Hres.
  unfold MainOpenai.after_fetch, MainLlmOnly.after_fetch.
  rewrite Hguard.
  unfold build_persona_llm, build_persona. rewrite Hchat.
  cbn [fst snd app negb]. rewrite Htruthy.
  split; [reflexivity|]. split; [reflexivity|apply strip_spec].
Qed.

Lemma completion_written_verbatim_witness :
  let w := Sample.world Sample.reddit_active Sample.chat_persona in
  written (MainOpenai.main w Sample.url)
    = [("outputs/kojied_persona.txt", "**User Persona: u/kojied**")]
  /\ written (MainLlmOnly.main w Sample.url)
     = [("outputs/kojied_persona.txt", "**User Persona: u/kojied**")].
Proof.
  assert (H : _) by
    (apply (completion_written_verbatim
              (Sample.world Sample.reddit_active Sample.chat_persona) Sample.url
              [post_item (mkSubmission 1700000000 "I love hiking" "and climbing" "/r/x/1")]
              [comment_item (mkComment 1700000100 "Climbing is great exercise" "/r/x/2")]
              (PyStr.nl ++ "**User Persona: u/kojied**  "));
     [reflexivity|reflexivity|left; discriminate|reflexivity
     |vm_compute; discriminate]).
  destruct H as (H1 & H2 & _).
  split; [exact H1|exact H2].
Defined.

(* ------------------------------------------------------------------ *)
(** ** The user name taken from the URL *)
(* ------------------------------------------------------------------ *)

Lemma count_char_app c (a b : string) :
  PyStr.count_char c (a ++ b) = (PyStr.count_char c a + PyStr.count_char c b)%nat.
Proof. induction a as [|x a IH]; simpl; [reflexivity|]. rewrite IH. lia. Qed.

Lemma count_char_free c (s : string) : free_of c s -> PyStr.count_char c s = 0%nat.
Proof.
  unfold free_of. induction s as [|x s IH]; simpl; [reflexivity|].
  rewrite andb_true_iff. intros [Hx Hs].
  destruct (Ascii.eqb x c); [discriminate|]. now rewrite IH.
Qed.

Lemma free_of_app c (a b : string) : free_of c a -> free_of c b -> free_of c (a ++ b).
Proof. unfold free_of. intros Ha Hb. now rewrite forallb_str_app, Ha, Hb. Qed.

Lemma split_char_nonnil sep s : PyStr.split_char sep s <> [].
Proof.
  destruct s as [|c s]; simpl; [discriminate|].
  destruct (Ascii.eqb c sep); [discriminate|].
  destruct (PyStr.split_char sep s); discriminate.
Qed.

Lemma split_char_parts_free sep s :
  forall x, In x (PyStr.split_char sep s) -> free_of sep x.
Proof.
  unfold free_of. induction s as [|c s IH]; simpl; intros x Hx.
  - destruct Hx as [<-|[]]. reflexivity.
  - destruct (Ascii.eqb c sep) eqn:Ec.
    + destruct Hx as [<-|Hx]; [reflexivity|auto].
    + destruct (PyStr.split_char sep s) as [|h t].
      * destruct Hx as [<-|[]]. simpl. now rewrite Ec.
      * destruct Hx as [<-|Hx].
        -- simpl. rewrite Ec. simpl. apply IH. now left.
        -- apply IH. now right.
Qed.

Lemma last_in {A} (l : list A) (d : A) : l <> [] -> In (last l d) l.
Proof.
  induction l as [|a l IH]; [congruence|]. intros _.
  destruct l as [|b l]; [now left|].
  right. apply IH. discriminate.
Qed.

Lemma split_char_app sep a b :
  PyStr.split_char sep (a ++ String sep b) =
  (PyStr.split_char sep a ++ PyStr.split_char sep b)%list.
Proof.
  induction a as [|x a IH]; simpl.
  - now rewrite Ascii.eqb_refl.
  - destruct (Ascii.eqb x sep); [now rewrite IH|].
    rewrite IH.
    pose proof (split_char_nonnil sep a) as Hn.
    destruct (PyStr.split_char sep a); [congruence|reflexivity].
Qed.

Lemma split_char_free sep s : free_of sep s -> PyStr.split_char sep s = [s].
Proof.
  unfold free_of. induction s as [|c s IH]; simpl; [reflexivity|].
  rewrite andb_true_iff. intros [Hc Hs].
  destruct (Ascii.eqb c sep); [discriminate|]. now rewrite (IH Hs).
Qed.

Lemma rstrip_by_all p s : PyStr.forallb_str p s = true -> PyStr.rstrip_by p s = "".
Proof.
  induction s as [|c s IH]; simpl; [reflexivity|].
  rewrite andb_true_iff. intros [Hc Hs]. now rewrite (IH Hs), Hc.
Qed.

Lemma rstrip_by_app_all p s t :
  PyStr.forallb_str p t = true -> PyStr.rstrip_by p (s ++ t) = PyStr.rstrip_by p s.
Proof.
  intros Ht. induction s as [|c s IH]; simpl.
  - now apply rstrip_by_all.
  - now rewrite IH.
Qed.

Lemma rstrip_by_id p s : ends_with p s = false -> PyStr.rstrip_by p s = s.
Proof.
  induction s as [|c s IH]; [reflexivity|].
  cbn [ends_with PyStr.rstrip_by]. destruct s as [|c' s].
  - intros ->. reflexivity.
  - intros H. now rewrite (IH H).
Qed.

Lemma rstrip_by_nonempty p s :
  PyStr.forallb_str p s = false -> PyStr.rstrip_by p s <> "".
Proof.
  intros Hs E.
  destruct (rstrip_by_spec p s) as [(r & Er & Hr) _].
  rewrite E in Er. simpl in Er. subst r. congruence.
Qed.

Lemma ends_with_app p s t : t <> "" -> ends_with p (s ++ t) = ends_with p t.
Proof.
  intros Ht. induction s as [|c s IH]; [reflexivity|].
  simpl. destruct (s ++ t) as [|c' u] eqn:E.
  - destruct s; simpl in E; [congruence|discriminate].
  - exact IH.
Qed.

Lemma ends_with_free c s : free_of c s -> ends_with (Ascii.eqb c) s = false.
Proof.
  unfold free_of. induction s as [|x s IH]; [reflexivity|].
  cbn [PyStr.forallb_str]. rewrite andb_true_iff. intros [Hx Hs].
  cbn [ends_with]. destruct s as [|x' s].
  - rewrite Ascii.eqb_sym. now destruct (Ascii.eqb x c).
  - auto.
Qed.

Lemma last_segment_nonempty sep s :
  s <> "" -> ends_with (Ascii.eqb sep) s = false ->
  last (PyStr.split_char sep s) "" <> "".
Proof.
  induction s as [|c s IH]; [congruence|]. intros _.
  cbn [ends_with PyStr.split_char]. destruct s as [|c' s].
  - rewrite Ascii.eqb_sym. intros ->. simpl. discriminate.
  - intros He. specialize (IH ltac:(discriminate) He).
    pose proof (split_char_nonnil sep (String c' s)) as Hn.
    destruct (Ascii.eqb c sep).
    + destruct (PyStr.split_char sep (String c' s)) as [|h t]; [congruence|].
      exact IH.
    + destruct (PyStr.split_char sep (String c' s)) as [|h t]; [congruence|].
      destruct t as [|h' t]; [simpl; discriminate|exact IH].
Qed.

(** X1. Whatever the URL, the user name taken from it holds no slash, so
    the output path has exactly one: the file lies directly in [outputs]. *)
Theorem username_has_no_slash (url : string) :
  free_of "/" (username_of url)
  /\ PyStr.count_char "/" (out_file (username_of url)) = 1%nat.
Proof.
  assert (H : free_of "/" (username_of url)).
  { apply (split_char_parts_free "/" (PyStr.rstrip_by (Ascii.eqb "/") url)).
    apply last_in, split_char_nonnil. }
  split; [exact H|].
  unfold out_file. rewrite !count_char_app, (count_char_free _ _ H).
  reflexivity.
Qed.

(** X2. A URL that ends with [/<name>] followed by any number of slashes
    yields [<name>], for a non-empty name without slash. *)
Theorem username_of_profile (base name slashes : string) :
  name <> "" ->
  free_of "/" name ->
  PyStr.forallb_str (Ascii.eqb "/") slashes = true ->
  username_of (base ++ "/" ++ name ++ slashes) = name.
Proof.
  intros Hne Hfree Hsl. unfold username_of.
  replace (base ++ "/" ++ name ++ slashes) with ((base ++ "/" ++ name) ++ slashes)
    by now rewrite !append_assoc.
  rewrite rstrip_by_app_all by exact Hsl.
  rewrite rstrip_by_id.
  - change (base ++ "/" ++ name) with (base ++ String "/" name).
    rewrite split_char_app, (split_char_free _ _ Hfree).
    apply last_last.
  - change (base ++ "/" ++ name) with (base ++ String "/" name).
    rewrite (ends_with_app _ base (String "/" name)) by discriminate.
    change (String "/" name) with ("/" ++ name).
    rewrite ends_with_app by exact Hne.
    now apply ends_with_free.
Qed.

Lemma username_of_profile_witness :
  username_of ("https://www.reddit.com/user" ++ "/" ++ "kojied" ++ "///") = "kojied".
Proof.
  apply (username_of_profile "https://www.reddit.com/user" "kojied" "///").
  - discriminate.
  - reflexivity.
  - reflexivity.
Defined.

(** X3. A URL that passes the check of [main] yields a non-empty user
    name. *)
Theorem username_nonempty (url : string) :
  PyStr.contains "reddit.com/user/" url = true ->
  username_of url <> "".
Proof.
  intros Hurl. unfold username_of.
  apply contains_spec in Hurl. destruct Hurl as (pre & post & ->).
  apply last_segment_nonempty.
  - apply rstrip_by_nonempty.
    rewrite !forallb_str_app. simpl. apply andb_false_r.
  - apply rstrip_by_spec.
Qed.

Lemma username_nonempty_witness :
  username_of Sample.url = "kojied" /\ username_of Sample.url <> "".
Proof.
  split; [reflexivity|].
  apply (username_nonempty Sample.url). reflexivity.
Defined.

(* ------------------------------------------------------------------ *)
(** ** What a run writes *)
(* ------------------------------------------------------------------ *)

Lemma only_prints_written tr : only_prints tr -> written tr = [].
Proof.
  unfold only_prints. induction tr as [|e tr IH]; [reflexivity|].
  cbn [forallb]. rewrite andb_true_iff. intros [He Htr].
  destruct e; try discriminate. simpl. auto.
Qed.

Lemma only_prints_app tr tr' : only_prints tr -> only_prints tr' -> only_prints (tr ++ tr').
Proof. unfold only_prints. intros H H'. now rewrite forallb_app, H, H'. Qed.

Lemma written_app tr tr' : written (tr ++ tr') = (written tr ++ written tr')%list.
Proof.
  induction tr as [|e tr IH]; [reflexivity|].
  destruct e; simpl; now rewrite IH.
Qed.

Lemma only_prints_caught tr :
  only_prints tr -> forallb (fun e => negb (is_uncaught e)) tr = true.
Proof.
  unfold only_prints. intros H. rewrite forallb_forall in *.
  intros e He. specialize (H e He). now destruct e.
Qed.

Lemma build_persona_simple_nonempty tb posts comments :
  build_persona_simple tb posts comments <> "".
Proof.
  rewrite build_persona_simple_blocks. unfold summary_lines.
  destruct (top_topics tb (combined posts comments)); cbn [PyStr.join]; discriminate.
Qed.

Lemma build_persona_llm_prints chat username posts comments :
  only_prints (fst (build_persona_llm chat username posts comments)).
Proof.
  unfold build_persona_llm. now destruct (chat username posts comments).
Qed.

Lemma build_persona_prints chat username posts comments :
  only_prints (fst (build_persona chat username posts comments)).
Proof.
  unfold build_persona. now destruct (chat username posts comments).
Qed.

Lemma truthy_str_strip content :
  truthy_str (Some (PyStr.strip content)) = true <-> PyStr.strip content <> "".
Proof. destruct (PyStr.strip content); simpl; split; congruence. Qed.

(** With some content, [main_openai.py] ends by writing a non-empty file. *)
Lemma main_openai_with_content (w : World) (username : string)
    (posts comments : list ContentItem) :
  posts <> [] \/ comments <> [] ->
  exists pre persona done,
    MainOpenai.after_fetch w username (Some posts, Some comments)
    = (pre ++ [Mkdir "outputs"; WriteText (out_file username) persona; Print done])%list
    /\ only_prints pre
    /\ persona <> "".
Proof.
  intros Hsome. unfold MainOpenai.after_fetch.
  rewrite (some_content posts comments Hsome).
  pose proof (build_persona_llm_prints (chat w) username posts comments) as Hp.
  destruct (build_persona_llm (chat w) username posts comments) as [ev persona].
  cbn [fst] in Hp.
  assert (Hfall : only_prints (Print "[+] Trying OpenAI persona generation…"
                    :: ev ++ [Print "[+] Falling back to simple persona builder…"])%list).
  { unfold only_prints in *. cbn [forallb is_print andb].
    now rewrite forallb_app, Hp. }
  destruct persona as [[|x s]|]; cbn [truthy_str negb].
  - eexists _, _, _. split; [|split; [exact Hfall|apply build_persona_simple_nonempty]].
    cbn [app]. rewrite <- !app_assoc. reflexivity.
  - exists (Print "[+] Trying OpenAI persona generation…" :: ev), (String x s).
    eexists. split; [reflexivity|]. split; [exact Hp|discriminate].
  - eexists _, _, _. split; [|split; [exact Hfall|apply build_persona_simple_nonempty]].
    cbn [app]. rewrite <- !app_assoc. reflexivity.
Qed.

(** The runs of [main_openai.py], by what the fetch returned. *)
Lemma main_openai_cases (w : World) (url : string) :
  let username := username_of url in
  (only_prints (MainOpenai.main w url)
   /\ (PyStr.contains "reddit.com/user/" url = false
       \/ snd (fetch_user_content (reddit w) username 100 100) = (None, None)
       \/ snd (fetch_user_content (reddit w) username 100 100) = (Some [], Some [])))
  \/ (exists posts comments pre persona done,
        PyStr.contains "reddit.com/user/" url = true
        /\ snd (fetch_user_content (reddit w) username 100 100)
           = (Some posts, Some comments)
        /\ (posts <> [] \/ comments <> [])
        /\ MainOpenai.main w url
           = (pre ++ [Mkdir "outputs"; WriteText (out_file username) persona;
                      Print done])%list
        /\ only_prints pre
        /\ persona <> "").
Proof.
  intros username.
  destruct (PyStr.contains "reddit.com/user/" url) eqn:Hurl.
  2:{ left. split; [|now left]. unfold MainOpenai.main. now rewrite Hurl. }
  rewrite (main_openai_run w url Hurl). fold username.
  destruct (fetch_user_content_cases (reddit w) username 100 100)
    as [(e & -> & _)|(ps & cs & -> & _)]; cbn [fst snd].
  - left. split; [reflexivity|]. right; now left.
  - assert (Hcase : (ps = [] /\ cs = []) \/ (ps <> [] \/ cs <> [])).
    { destruct ps, cs; auto; right; [right|left|left]; discriminate. }
    destruct Hcase as [[-> ->]|Hsome].
    + left. split; [reflexivity|]. right; now right.
    + right. exists ps, cs.
      destruct (main_openai_with_content w username ps cs Hsome)
        as (pre & persona & done & -> & Hpre & Hne).
      exists (Print (msg_fetching username) :: pre), persona, done.
      split; [reflexivity|]. split; [reflexivity|]. split; [exact Hsome|].
      split; [reflexivity|]. split; [exact Hpre|exact Hne].
Qed.

(** With some content, [main.py] writes the stripped completion if it is
    not empty, and nothing otherwise. *)
Lemma main_llm_only_with_content (w : World) (username : string)
    (posts comments : list ContentItem) :
  posts <> [] \/ comments <> [] ->
  (only_prints (MainLlmOnly.after_fetch w username (Some posts, Some comments))
   /\ forall content, chat w username posts comments = Ok content ->
                      PyStr.strip content = "")
  \/ (exists pre content done,
        chat w username posts comments = Ok content
        /\ PyStr.strip content <> ""
        /\ MainLlmOnly.after_fetch w username (Some posts, Some comments)
           = (pre ++ [Mkdir "outputs";
                      WriteText (out_file username) (PyStr.strip content);
                      Print done])%list
        /\ only_prints pre).
Proof.
  intros Hsome. unfold MainLlmOnly.after_fetch.
  rewrite (some_content posts comments Hsome).
  unfold build_persona.
  destruct (chat w username posts comments) as [content|e].
  - cbn [fst snd app].
    destruct (PyStr.strip content) as [|x s] eqn:Es; cbn [truthy_str negb].
    + left. split; [reflexivity|]. intros c [= <-]. exact Es.
    + right. eexists [Print _; Print _], content, _.
      split; [reflexivity|]. rewrite Es.
      split; [discriminate|]. split; reflexivity.
  - left. split; [reflexivity|]. discriminate.
Qed.

Lemma main_llm_only_cases (w : World) (url : string) :
  let username := username_of url in
  only_prints (MainLlmOnly.main w url)
  \/ (exists posts comments pre content done,
        PyStr.contains "reddit.com/user/" url = true
        /\ snd (fetch_user_content (reddit w) username 100 100)
           = (Some posts, Some comments)
        /\ (posts <> [] \/ comments <> [])
        /\ chat w username posts comments = Ok content
        /\ PyStr.strip content <> ""
        /\ MainLlmOnly.main w url
           = (pre ++ [Mkdir "outputs";
                      WriteText (out_file username) (PyStr.strip content);
                      Print done])%list
        /\ only_prints pre).
Proof.
  intros username.
  destruct (PyStr.contains "reddit.com/user/" url) eqn:Hurl.
  2:{ left. unfold MainLlmOnly.main. now rewrite Hurl. }
  rewrite (main_llm_only_run w url Hurl). fold username.
  destruct (fetch_user_content_cases (reddit w) username 100 100)
    as [(e & -> & _)|(ps & cs & -> & _)]; cbn [fst snd].
  - left. reflexivity.
  - assert (Hcase : (ps = [] /\ cs = []) \/ (ps <> [] \/ cs <> [])).
    { destruct ps, cs; auto; right; [right|left|left]; discriminate. }
    destruct Hcase as [[-> ->]|Hsome].
    + left. reflexivity.
    + destruct (main_llm_only_with_content w username ps cs Hsome)
        as [[Hp _]|(pre & content & done & Hchat & Hne & -> & Hpre)].
      * left. unfold only_prints in *. cbn [app forallb is_print andb]. exact Hp.
      * right. exists ps, cs, (Print (msg_fetching username) :: pre), content, done.
        split; [reflexivity|]. split; [reflexivity|]. split; [exact Hsome|].
        split; [exact Hchat|]. split; [exact Hne|]. split; [reflexivity|exact Hpre].
Qed.

(** X4. Every run of either script either only prints, or prints and
    then creates [outputs] and writes one file, [outputs/<username>_persona.txt],
    whose content is not empty, followed by one closing line; no run ends
    in an uncaught exception of the model. *)
Theorem run_shape (w : World) (url : string) :
  (only_prints (MainOpenai.main w url)
   \/ writes_persona (username_of url) (MainOpenai.main w url))
  /\ (only_prints (MainLlmOnly.main w url)
      \/ writes_persona (username_of url) (MainLlmOnly.main w url))
  /\ forallb (fun e => negb (is_uncaught e)) (MainOpenai.main w url) = true
  /\ forallb (fun e => negb (is_uncaught e)) (MainLlmOnly.main w url) = true.
Proof.
  assert (H1 : only_prints (MainOpenai.main w url)
               \/ writes_persona (username_of url) (MainOpenai.main w url)).
  { destruct (main_openai_cases w url)
      as [[Hp _]|(ps & cs & pre & persona & done & _ & _ & _ & E & Hpre & Hne)].
    - now left.
    - right. exists pre, persona, done. auto. }
  assert (H2 : only_prints (MainLlmOnly.main w url)
               \/ writes_persona (username_of url) (MainLlmOnly.main w url)).
  { destruct (main_llm_only_cases w url)
      as [Hp|(ps & cs & pre & content & done & _ & _ & _ & _ & Hne & E & Hpre)].
    - now left.
    - right. exists pre, (PyStr.strip content), done. auto. }
  assert (Hshape : forall tr,
            only_prints tr \/ writes_persona (username_of url) tr ->
            forallb (fun e => negb (is_uncaught e)) tr = true).
  { intros tr [Hp|(pre & persona & done & -> & Hpre & _)].
    - now apply only_prints_caught.
    - rewrite forallb_app, (only_prints_caught _ Hpre). reflexivity. }
  auto.
Qed.

(** X5. [main_openai.py] writes a persona file exactly when the URL passes
    the check and the fetch returned at least one post or comment; the
    answer of the language model has no part in it. *)
Theorem openai_writes_iff (w : World) (url : string) :
  written (MainOpenai.main w url) <> [] <->
  (PyStr.contains "reddit.com/user/" url = true
   /\ exists posts comments,
        snd (fetch_user_content (reddit w) (username_of url) 100 100)
        = (Some posts, Some comments)
        /\ (posts <> [] \/ comments <> [])).
Proof.
  destruct (main_openai_cases w url)
    as [[Hp Hwhy]|(ps & cs & pre & persona & done & Hurl & Hres & Hsome & E & Hpre & Hne)].
  - rewrite (only_prints_written _ Hp). split; [congruence|].
    intros (Hurl & ps & cs & Hres & Hsome).
    destruct Hwhy as [H|[H|H]]; rewrite H in *; try discriminate.
    inversion Hres; subst. destruct Hsome; congruence.
  - split; [eauto|]. intros _.
    rewrite E, written_app, (only_prints_written _ Hpre). discriminate.
Qed.

(** X6. [main.py] writes a persona file exactly when the URL passes the
    check, the fetch returned at least one post or comment and the model
    call returned a text that is not empty after stripping. *)
Theorem llm_only_writes_iff (w : World) (url : string) :
  written (MainLlmOnly.main w url) <> [] <->
  (PyStr.contains "reddit.com/user/" url = true
   /\ exists posts comments content,
        snd (fetch_user_content (reddit w) (username_of url) 100 100)
        = (Some posts, Some comments)
        /\ (posts <> [] \/ comments <> [])
        /\ chat w (username_of url) posts comments = Ok content
        /\ PyStr.strip content <> "").
Proof.
  split.
  - destruct (main_llm_only_cases w url)
      as [Hp|(ps & cs & pre & content & done & Hurl & Hres & Hsome & Hchat & Hne & _)].
    + rewrite (only_prints_written _ Hp). congruence.
    + intros _. split; [exact Hurl|]. exists ps, cs, content. auto.
  - intros (Hurl & ps & cs & content & Hres & Hsome & Hchat & Hne).
    rewrite (main_llm_only_run w url Hurl).
    rewrite (fetch_ok_events _ _ _ _ _ _ Hres), Hres. cbn [app written].
    destruct (main_llm_only_with_content w (username_of url) ps cs Hsome)
      as [[_ Hnone]|(pre & content' & done & _ & _ & -> & Hpre)].
    + elim Hne. now apply Hnone.
    + rewrite written_app, (only_prints_written _ Hpre). discriminate.
Qed.

(* ------------------------------------------------------------------ *)
(** ** The topics and the text of the fallback persona *)
(* ------------------------------------------------------------------ *)

Lemma lower_app a b : PyStr.lower (a ++ b) = PyStr.lower a ++ PyStr.lower b.
Proof.
  induction a as [|c a IH]; [reflexivity|].
  cbn [PyStr.lower PyStr.map_str append]. f_equal. exact IH.
Qed.

Lemma topic_words_spec tb corpus t :
  In t (topic_words tb corpus) ->
  PyStr.mem t stopwords = false
  /\ exists w, In w (tb_words tb corpus)
               /\ tb_isalpha tb w = true /\ tb_lower tb w = t.
Proof.
  unfold topic_words. rewrite in_map_iff.
  intros (w & <- & Hw). apply filter_In in Hw. destruct Hw as [Hin Hw].
  apply andb_true_iff in Hw. destruct Hw as [Ha Hs].
  split; [now destruct (PyStr.mem (tb_lower tb w) stopwords)|].
  exists w. auto.
Qed.

Lemma top_topics_in tb corpus t c :
  In (t, c) (top_topics tb corpus) ->
  In t (topic_words tb corpus) /\ c = occurrences t (topic_words tb corpus).
Proof.
  intros H. apply most_common_in in H. now apply of_list_in in H.
Qed.

(** X7. No topic of the ranking is a stopword, and every topic is the
    lower-case form [w.lower()] of a token [w] of the corpus for which
    [w.isalpha()] holds. *)
Theorem topics_are_lowercase_words (tb : TextBlob) (corpus : string) :
  Forall (fun tc => PyStr.mem (fst tc) stopwords = false
                    /\ exists w, In w (tb_words tb corpus)
                                 /\ tb_isalpha tb w = true
                                 /\ tb_lower tb w = fst tc)
         (top_topics tb corpus).
Proof.
  apply Forall_forall. intros [t c] H.
  apply top_topics_in in H. destruct H as [H _].
  exact (topic_words_spec tb corpus t H).
Qed.

Lemma count_occ_map_eqb (g : string -> string) (l : list string) (t : string) :
  count_occ string_dec (map g l) t
  = List.length (filter (fun w => String.eqb (g w) t) l).
Proof.
  induction l as [|w l IH]; [reflexivity|].
  cbn [map count_occ filter].
  destruct (string_dec (g w) t) as [E|E].
  - apply String.eqb_eq in E. rewrite E. simpl. now rewrite IH.
  - apply String.eqb_neq in E. now rewrite E.
Qed.

Lemma filter_twice {A} (f g : A -> bool) (l : list A) :
  filter f (filter g l) = filter (fun x => g x && f x) l.
Proof.
  induction l as [|x l IH]; [reflexivity|].
  cbn [filter]. destruct (g x); cbn [filter andb]; [|exact IH].
  destruct (f x); now rewrite IH.
Qed.

(** X8. The count shown for a topic is the number of alphabetic tokens of
    the corpus whose lower-case form is the topic: tokens are counted
    without regard to letter case. *)
Theorem topic_counts_ignore_case (tb : TextBlob) (corpus : string) :
  Forall (fun tc => snd tc
                    = List.length (filter (counts_as tb (fst tc)) (tb_words tb corpus)))
         (top_topics tb corpus).
Proof.
  apply Forall_forall. intros [t c] H.
  apply top_topics_in in H. destruct H as [Ht ->].
  destruct (topic_words_spec tb corpus t Ht) as (Hstop & _).
  cbn [fst snd]. unfold occurrences, topic_words.
  rewrite count_occ_map_eqb, filter_twice.
  f_equal. apply filter_ext. intros w. unfold counts_as.
  destruct (String.eqb_spec (tb_lower tb w) t) as [E|E].
  - rewrite E, Hstop. now destruct (tb_isalpha tb w).
  - now rewrite !andb_false_r.
Qed.

(* ------------------------------------------------------------------ *)
(** ** The prompt entries: snippets and lines *)
(* ------------------------------------------------------------------ *)


Lemma slice_to_prefix n : forall s, exists rest, s = PyStr.slice_to n s ++ rest.
Proof.
  induction n as [|n IH]; intros [|c s]; simpl; eauto.
  destruct (IH s) as (rest & E). exists rest. congruence.
Qed.


Lemma free_of_parts c a b : free_of c (a ++ b) -> free_of c a /\ free_of c b.
Proof. unfold free_of. rewrite forallb_str_app. apply andb_true_iff. Qed.

Lemma replace_char_free a b s : a <> b -> free_of a (PyStr.replace_char a b s).
Proof.
  intros Hab. unfold free_of, PyStr.replace_char.
  induction s as [|c s IH]; [reflexivity|].
  cbn [PyStr.map_str PyStr.forallb_str]. rewrite IH, andb_true_r.
  destruct (Ascii.eqb_spec c a) as [->|Hc].
  - apply negb_true_iff, Ascii.eqb_neq. congruence.
  - apply negb_true_iff, Ascii.eqb_neq. exact Hc.
Qed.

Lemma strip_free c s : free_of c s -> free_of c (PyStr.strip s).
Proof.
  intros H. destruct (strip_spec s) as [(l & r & E & _) _].
  rewrite E in H. apply free_of_parts in H. destruct H as [_ H].
  apply free_of_parts in H. tauto.
Qed.

Lemma snippet_free_of_lf txt : free_of PyStr.LF (snippet txt).
Proof.
  unfold snippet.
  destruct (slice_to_prefix 200 (PyStr.strip (PyStr.replace_char PyStr.LF " " txt)))
    as (rest & E).
  assert (H : free_of PyStr.LF (PyStr.strip (PyStr.replace_char PyStr.LF " " txt))).
  { apply strip_free, replace_char_free. discriminate. }
  rewrite E in H. now apply free_of_parts in H.
Qed.


Lemma count_char_join c sep parts :
  Forall (free_of c) parts ->
  PyStr.count_char c (PyStr.join sep parts)
  = (Nat.pred (List.length parts) * PyStr.count_char c sep)%nat.
Proof.
  induction 1 as [|p parts Hp Hps IH]; [reflexivity|].
  destruct parts as [|p' parts].
  - simpl. now apply count_char_free.
  - change (PyStr.join sep (p :: p' :: parts))
      with (p ++ sep ++ PyStr.join sep (p' :: parts)).
    rewrite !count_char_app, IH, (count_char_free _ _ Hp). simpl. lia.
Qed.

Lemma fmt_entry_free open_quote close_quote date_of it :
  free_of PyStr.LF open_quote -> free_of PyStr.LF close_quote ->
  free_of PyStr.LF (date_of (created_utc it)) ->
  free_of PyStr.LF (kind it) -> free_of PyStr.LF (permalink it) ->
  free_of PyStr.LF (fmt_entry open_quote close_quote date_of it).
Proof.
  intros Ho Hc Hd Hk Hp. unfold fmt_entry.
  repeat (apply free_of_app; [first [assumption|reflexivity|apply snippet_free_of_lf]|]).
  assumption.
Qed.

(** X11. [fmt] puts every item on exactly one line, whatever its text:
    when the dates, kinds and permalinks hold no line feed, the result
    for [n] items has [n - 1] line feeds, in both scripts. *)
Theorem fmt_one_line_per_item (date_of : Z -> string) (items : list ContentItem) :
  (forall ts, free_of PyStr.LF (date_of ts)) ->
  Forall (fun it => free_of PyStr.LF (kind it) /\ free_of PyStr.LF (permalink it))
         items ->
  PyStr.count_char PyStr.LF (BuildPersonaLlm.fmt date_of items)
    = Nat.pred (List.length items)
  /\ PyStr.count_char PyStr.LF (BuildPersona.fmt date_of items)
     = Nat.pred (List.length items).
Proof.
  intros Hdate Hitems.
  assert (H : forall oq cq,
            free_of PyStr.LF oq -> free_of PyStr.LF cq ->
            PyStr.count_char PyStr.LF
              (PyStr.join PyStr.nl (map (fmt_entry oq cq date_of) items))
            = Nat.pred (List.length items)).
  { intros oq cq Ho Hc. rewrite count_char_join.
    - rewrite length_map. change (PyStr.count_char PyStr.LF PyStr.nl) with 1%nat. lia.
    - apply Forall_map. eapply Forall_impl; [|exact Hitems].
      intros it [Hk Hp]. now apply fmt_entry_free. }
  split; apply H; reflexivity.
Qed.

Lemma fmt_one_line_per_item_witness :
  let items := [Sample.post ("first line" ++ PyStr.nl ++ "second line");
                Sample.comment (PyStr.nl ++ "reply" ++ PyStr.nl)] in
  PyStr.count_char PyStr.LF (BuildPersonaLlm.fmt (fun _ => "2023-11-14") items) = 1%nat
  /\ PyStr.count_char PyStr.LF (BuildPersona.fmt (fun _ => "2023-11-14") items) = 1%nat.
Proof.
  apply (fmt_one_line_per_item (fun _ => "2023-11-14")
           [Sample.post ("first line" ++ PyStr.nl ++ "second line");
            Sample.comment (PyStr.nl ++ "reply" ++ PyStr.nl)]).
  - intros ts. reflexivity.
  - repeat constructor.
Defined.

(* ------------------------------------------------------------------ *)
(** ** Failures of the model call *)
(* ------------------------------------------------------------------ *)

(** X12. When the model call raises an error whose text holds the word
    "quota" in any letter case, [build_persona_llm] prints the fixed quota
    line, without the error text, and returns [None]; [build_persona] of
    [main.py] prints the error text in every case. *)
Theorem quota_error_reported (chat : ChatCompletion) (username : string)
    (posts comments : list ContentItem) (e pre word post : string) :
  chat username posts comments = Raise e ->
  e = pre ++ word ++ post ->
  PyStr.lower word = "quota" ->
  build_persona_llm chat username posts comments
    = ([Print "[ERROR] OpenAI quota exceeded."], None)
  /\ build_persona chat username posts comments
     = ([Print ("[ERROR] generating persona: " ++ e)], None).
Proof.
  intros Hchat He Hword. unfold build_persona_llm, build_persona. rewrite Hchat.
  assert (Hq : PyStr.contains "quota" (PyStr.lower e) = true).
  { apply contains_spec. exists (PyStr.lower pre), (PyStr.lower post).
    now rewrite He, !lower_app, Hword. }
  rewrite Hq. split; reflexivity.
Qed.

Lemma quota_error_reported_witness :
  build_persona_llm (fun _ _ _ => Raise "Insufficient QUOTA for this key") "kojied" [] []
  = ([Print "[ERROR] OpenAI quota exceeded."], None).
Proof.
  apply (quota_error_reported (fun _ _ _ => Raise "Insufficient QUOTA for this key")
           "kojied" [] [] "Insufficient QUOTA for this key"
           "Insufficient " "QUOTA" " for this key");
    reflexivity.
Defined.

(* ------------------------------------------------------------------ *)
(** ** The fetched items *)
(* ------------------------------------------------------------------ *)

Lemma iterate_ok {A} (l : Listing A) (limit : nat) (xs : list A) :
  iterate l limit = Ok xs -> xs = firstn limit (available l).
Proof.
  unfold iterate.
  destruct (Nat.leb_spec limit (List.length (available l))) as [Hle|Hlt].
  - now intros [= <-].
  - destruct (failure l); [discriminate|]. intros [= <-].
    symmetry. apply firstn_all2. lia.
Qed.

(** X13. A successful fetch returns the first [limit_posts] submissions
    and the first [limit_comments] comments of the listings, converted one
    by one and in the order of the listings; the posts are of kind "Post",
    the comments of kind "Comment". *)
Theorem fetched_items_in_order (r : Reddit) (username : string)
    (limit_posts limit_comments : nat) (posts comments : list ContentItem) :
  snd (fetch_user_content r username limit_posts limit_comments)
    = (Some posts, Some comments) ->
  posts = map post_item (firstn limit_posts (available (submissions_new r username)))
  /\ comments
     = map comment_item (firstn limit_comments (available (comments_new r username)))
  /\ Forall (fun it => kind it = "Post") posts
  /\ Forall (fun it => kind it = "Comment") comments.
Proof.
  unfold fetch_user_content, fetch_body, bind.
  destruct (redditor_id r username) as [i|e]; [|discriminate].
  destruct (iterate (submissions_new r username) limit_posts) as [xs|e] eqn:Ex;
    [|discriminate].
  destruct (iterate (comments_new r username) limit_comments) as [ys|e] eqn:Ey;
    [|discriminate].
  cbn [snd]. intros [= <- <-].
  apply iterate_ok in Ex, Ey. subst xs ys.
  split; [reflexivity|]. split; [reflexivity|].
  split; apply Forall_map, Forall_forall; reflexivity.
Qed.

Lemma fetched_items_in_order_witness :
  exists p c,
    snd (fetch_user_content Sample.reddit_active "kojied" 1 5) = (Some [p], Some [c])
    /\ kind p = "Post" /\ kind c = "Comment"
    /\ text p = "I love hiking" ++ PyStr.nl ++ PyStr.nl ++ "and climbing".
Proof.
  pose proof (fetched_items_in_order Sample.reddit_active "kojied" 1 5 _ _ eq_refl)
    as (_ & _ & Hp & Hc).
  do 2 eexists. split; [reflexivity|].
  split; [exact (Forall_inv Hp)|]. split; [exact (Forall_inv Hc)|reflexivity].
Defined.

(* ------------------------------------------------------------------ *)
(** ** Trailing slashes of the URL *)
(* ------------------------------------------------------------------ *)

Lemma username_of_slashes url slashes :
  PyStr.forallb_str (Ascii.eqb "/") slashes = true ->
  username_of (url ++ slashes) = username_of url.
Proof. intros H. unfold username_of. now rewrite rstrip_by_app_all. Qed.

Lemma contains_app sub s t :
  PyStr.contains sub s = true -> PyStr.contains sub (s ++ t) = true.
Proof.
  rewrite !contains_spec. intros (pre & post & ->).
  exists pre, (post ++ t). now rewrite !append_assoc.
Qed.

(** X14. Slashes appended to a URL that passes the check change nothing:
    both scripts run exactly as for the URL without them. *)
Theorem trailing_slashes_ignored (w : World) (url slashes : string) :
  PyStr.contains "reddit.com/user/" url = true ->
  PyStr.forallb_str (Ascii.eqb "/") slashes = true ->
  MainOpenai.main w (url ++ slashes) = MainOpenai.main w url
  /\ MainLlmOnly.main w (url ++ slashes) = MainLlmOnly.main w url.
Proof.
  intros Hurl Hsl.
  pose proof (contains_app _ _ slashes Hurl) as Hurl'.
  unfold MainOpenai.main, MainLlmOnly.main.
  rewrite Hurl, Hurl', (username_of_slashes url slashes Hsl).
  split; reflexivity.
Qed.

Lemma trailing_slashes_ignored_witness :
  MainOpenai.main (Sample.world Sample.reddit_active Sample.chat_persona)
                  ("https://www.reddit.com/user/kojied" ++ "//")
  = MainOpenai.main (Sample.world Sample.reddit_active Sample.chat_persona)
                    "https://www.reddit.com/user/kojied".
Proof.
  apply (trailing_slashes_ignored
           (Sample.world Sample.reddit_active Sample.chat_persona)
           "https://www.reddit.com/user/kojied" "//"); reflexivity.
Defined.

(* ------------------------------------------------------------------ *)
(** ** The number a rendered numeral denotes *)
(* ------------------------------------------------------------------ *)

Lemma digits_value_from_app (a b : string) : forall acc,
  digits_value_from acc (a ++ b) = digits_value_from (digits_value_from acc a) b.
Proof. induction a as [|c a IH]; intros acc; simpl; auto. Qed.

Lemma digit_value_digit_char (k : Z) :
  (0 <= k < 10)%Z -> digit_value (PyFmt.digit_char k) = k.
Proof.
  intros H.
  assert (E : (k = 0 \/ k = 1 \/ k = 2 \/ k = 3 \/ k = 4 \/ k = 5 \/ k = 6
               \/ k = 7 \/ k = 8 \/ k = 9)%Z) by lia.
  repeat (destruct E as [E|E]; [rewrite E; reflexivity|]).
  rewrite E; reflexivity.
Qed.

Lemma digits_value_digits_fixed d : forall n,
  (0 <= n)%Z -> digits_value (PyFmt.digits_fixed d n) = (n mod 10 ^ Z.of_nat d)%Z.
Proof.
  unfold digits_value.
  induction d as [|d IH]; intros n Hn.
  - simpl. now rewrite Z.mod_1_r.
  - cbn [PyFmt.digits_fixed]. rewrite digits_value_from_app, IH.
    + cbn [digits_value_from].
      rewrite digit_value_digit_char by (apply Z.mod_pos_bound; lia).
      rewrite Nat2Z.inj_succ, Z.pow_succ_r by lia.
      rewrite (Z.rem_mul_r n 10 (10 ^ Z.of_nat d)) by lia. lia.
    + apply Z.div_pos; lia.
Qed.

Lemma digits_value_from_uint u : forall acc,
  digits_value_from (Zpos acc) (NilEmpty.string_of_uint u)
  = Zpos (Pos.of_uint_acc u acc).
Proof.
  induction u; intros acc;
    cbn [NilEmpty.string_of_uint digits_value_from Pos.of_uint_acc];
    try reflexivity;
    rewrite <- IHu; f_equal; digit_constant; lia.
Qed.

Lemma digits_value_uint u :
  digits_value (NilEmpty.string_of_uint u) = Z.of_N (Pos.of_uint u).
Proof.
  unfold digits_value.
  induction u; cbn [NilEmpty.string_of_uint digits_value_from Pos.of_uint];
    try reflexivity; digit_constant;
    first [exact IHu
          |cbn [Z.of_N]; rewrite <- digits_value_from_uint; reflexivity].
Qed.

Lemma digits_value_str_N (n : N) : digits_value (PyStr.str_N n) = Z.of_N n.
Proof.
  unfold PyStr.str_N. rewrite digits_value_uint.
  change (Pos.of_uint (N.to_uint n)) with (N.of_uint (N.to_uint n)).
  now rewrite DecimalN.Unsigned.of_to.
Qed.

Lemma round_half_even_error (n m : Z) :
  (0 <= n)%Z -> (0 < m)%Z ->
  (- m <= 2 * (PyFmt.round_half_even n m * m) - 2 * n <= m)%Z.
Proof.
  intros Hn Hm. unfold PyFmt.round_half_even.
  pose proof (Z.div_mod n m ltac:(lia)) as Hdm.
  pose proof (Z.mod_pos_bound n m Hm) as Hr.
  set (q := (n / m)%Z) in *. set (r := (n mod m)%Z) in *.
  destruct (Z.compare_spec (2 * r) m) as [E|E|E].
  - destruct (Z.even q); nia.
  - nia.
  - nia.
Qed.

Lemma digits_free_of_point s :
  PyStr.forallb_str PyStr.is_digit s = true -> free_of "." s.
Proof.
  apply forallb_str_impl. intros c Hc.
  destruct (Ascii.eqb_spec c ".") as [->|]; [discriminate|reflexivity].
Qed.

Lemma unsigned_value_digits (ip fp : string) :
  PyStr.forallb_str PyStr.is_digit ip = true ->
  PyStr.forallb_str PyStr.is_digit fp = true ->
  unsigned_value (ip ++ "." ++ fp)
  = Some (inject_Z (digits_value ip)
          + inject_Z (digits_value fp) / inject_Z (10 ^ Z.of_nat (String.length fp)))%Q.
Proof.
  intros Hi Hf. unfold unsigned_value.
  change (ip ++ "." ++ fp) with (ip ++ String "." fp).
  rewrite split_char_app.
  rewrite (split_char_free _ _ (digits_free_of_point _ Hi)).
  rewrite (split_char_free _ _ (digits_free_of_point _ Hf)).
  cbn [app]. now rewrite Hi, Hf.
Qed.

Lemma numeral_value_unsigned c r :
  PyStr.is_digit c = true ->
  numeral_value (String c r) = unsigned_value (String c r).
Proof.
  destruct c as [[] [] [] [] [] [] [] []]; intros H;
    first [discriminate H|reflexivity].
Qed.

(** The numeral printed for [x] with [d > 0] decimals denotes [x] rounded
    to a multiple of [10^-d]: it is within half a unit of the last digit. *)
Lemma format_fixed_renders (d : nat) (x : Q) :
  d <> 0%nat ->
  renders ((1 # 2) / inject_Z (10 ^ Z.of_nat d)) x (PyFmt.format_fixed d x).
Proof.
  intros Hd. unfold PyFmt.format_fixed.
  destruct d as [|d]; [congruence|].
  set (scale := (10 ^ Z.of_nat (S d))%Z).
  assert (Hscale : (0 < scale)%Z) by (apply Z.pow_pos_nonneg; lia).
  set (r := PyFmt.round_half_even (Z.abs (Qnum x) * scale) (Zpos (Qden x))).
  pose proof (round_half_even_error (Z.abs (Qnum x) * scale) (Zpos (Qden x))
                ltac:(lia) ltac:(lia)) as Herr.
  fold r in Herr.
  assert (Hr0 : (0 <= r)%Z).
  { apply (round_half_even_bounds _ _ (Z.abs (Qnum x) * scale + 1)); nia. }
  pose proof (Z.div_mod r scale ltac:(lia)) as Hdm.
  pose proof (Z.mod_pos_bound r scale Hscale) as Hmod.
  assert (Hq0 : (0 <= r / scale)%Z) by (apply Z.div_pos; lia).
  set (ip := PyStr.str_N (Z.to_N (r / scale))).
  set (fp := PyFmt.digits_fixed (S d) (r mod scale)).
  assert (Hip : PyStr.forallb_str PyStr.is_digit ip = true) by apply str_N_digits.
  assert (Hfp : PyStr.forallb_str PyStr.is_digit fp = true) by apply digits_fixed_digits.
  assert (Hu : unsigned_value (ip ++ "." ++ fp)
               = Some (inject_Z (r / scale) + inject_Z (r mod scale) / inject_Z scale)%Q).
  { rewrite (unsigned_value_digits ip fp Hip Hfp). unfold ip, fp.
    rewrite digits_value_str_N, Z2N.id by exact Hq0.
    rewrite digits_value_digits_fixed by lia.
    rewrite digits_fixed_length. fold scale.
    rewrite Z.mod_mod by lia. reflexivity. }
  set (u := (inject_Z (r / scale) + inject_Z (r mod scale) / inject_Z scale)%Q) in *.
  assert (Hscale' : (0 < inject_Z scale)%Q).
  { unfold Qlt. simpl. lia. }
  assert (Hus : (u * inject_Z scale == inject_Z r)%Q).
  { unfold u. rewrite Hdm at 3. rewrite inject_Z_plus, inject_Z_mult.
    field. intros E. rewrite E in Hscale'. now apply Qlt_irrefl in Hscale'. }
  set (X := (Z.abs (Qnum x) # Qden x)%Q).
  set (S := inject_Z scale) in *.
  set (eps := ((1 # 2) / S)%Q).
  assert (Hbound : (X * S - (1 # 2) <= inject_Z r <= X * S + (1 # 2))%Q).
  { unfold X, S, Qle, Qminus, Qplus, Qmult, Qopp, inject_Z. cbn [Qnum Qden].
    rewrite !Pos2Z.inj_mul. nia. }
  assert (Heps : (eps * S == 1 # 2)%Q).
  { unfold eps. field. intros E. rewrite E in Hscale'. now apply Qlt_irrefl in Hscale'. }
  assert (Hu_bound : (X - eps <= u <= X + eps)%Q).
  { split; apply (Qmult_le_r _ _ S Hscale').
    - setoid_replace ((X - eps) * S)%Q with (X * S - eps * S)%Q by ring.
      rewrite Heps, Hus. apply Hbound.
    - setoid_replace ((X + eps) * S)%Q with (X * S + eps * S)%Q by ring.
      rewrite Heps, Hus. apply Hbound. }
  destruct (Qnum x <? 0)%Z eqn:Hneg.
  - exists (- u)%Q. split.
    + change ("-" ++ ip ++ "." ++ fp) with (String "-" (ip ++ "." ++ fp)).
      cbn [numeral_value]. now rewrite Hu.
    + assert (Hx : (x == - X)%Q).
      { apply Z.ltb_lt in Hneg. unfold X, Qeq, Qopp. cbn [Qnum Qden]. lia. }
      rewrite Hx. destruct Hu_bound as [H1 H2]. split; lra.
  - exists u. split.
    + change ("" ++ ip ++ "." ++ fp) with (ip ++ "." ++ fp).
      pose proof (str_N_nonempty (Z.to_N (r / scale))) as Hne. fold ip in Hne.
      destruct ip as [|c ip']; [congruence|].
      cbn [append]. rewrite numeral_value_unsigned.
      * exact Hu.
      * cbn [PyStr.forallb_str] in Hip. now apply andb_true_iff in Hip.
    + assert (Hx : (x == X)%Q).
      { apply Z.ltb_ge in Hneg. unfold X, Qeq. cbn [Qnum Qden]. lia. }
      rewrite Hx. exact Hu_bound.
Qed.

(* ------------------------------------------------------------------ *)
(** ** Division of integers in binary64 *)
(* ------------------------------------------------------------------ *)

Local Open Scope Q_scope.

Lemma two_pow_pos (z : Z) : 0 < 2 ^ z.
Proof. apply Qpower_0_lt. reflexivity. Qed.

Lemma Qnum_pos (q : Q) : 0 < q -> (0 < Qnum q)%Z.
Proof. destruct q as [n d]. unfold Qlt. cbn [Qnum Qden]. lia. Qed.

Lemma two_pow_Z (n : Z) : (0 <= n)%Z -> 2 ^ n == inject_Z (2 ^ n).
Proof. intros H. now rewrite Zpower_Qpower. Qed.

(** For [q > 0], [2^(exponent q)] is not above [q]. *)
Lemma exponent_le (q : Q) : 0 < q -> 2 ^ PyFloat.exponent q <= q.
Proof.
  intros Hq. unfold PyFloat.exponent.
  set (la := Z.log2 (Qnum q)). set (lb := Z.log2 (Zpos (Qden q))).
  destruct (Qle_bool (2 ^ (la - lb)) q) eqn:E.
  - now apply Qle_bool_iff.
  - assert (Hnum : (0 < Qnum q)%Z) by now apply Qnum_pos.
    pose proof (Z.log2_spec (Qnum q) Hnum) as [Ha _]. fold la in Ha.
    pose proof (Z.log2_spec (Zpos (Qden q)) ltac:(lia)) as [_ Hb]. fold lb in Hb.
    pose proof (Z.log2_nonneg (Qnum q)) as Hla. fold la in Hla.
    pose proof (Z.log2_nonneg (Zpos (Qden q))) as Hlb. fold lb in Hlb.
    replace (la - lb - 1)%Z with (la + - (Z.succ lb))%Z by lia.
    rewrite Qpower_plus by discriminate.
    rewrite Qpower_opp, !two_pow_Z by lia.
    assert (HB : (0 < 2 ^ Z.succ lb)%Z) by (apply Z.pow_pos_nonneg; lia).
    assert (HA : (0 < 2 ^ la)%Z) by (apply Z.pow_pos_nonneg; lia).
    destruct (2 ^ Z.succ lb)%Z as [|B|B] eqn:EB; try lia.
    unfold Qle, Qmult, Qinv, inject_Z. cbn [Qnum Qden].
    destruct q as [n d]. cbn [Qnum Qden] in *. nia.
Qed.

(** and [q] is below [2^(exponent q + 1)]: the significand that is rounded
    lies between [2^52] and [2^53]. *)
Lemma exponent_lt (q : Q) : 0 < q -> q < 2 ^ (PyFloat.exponent q + 1).
Proof.
  intros Hq. unfold PyFloat.exponent.
  set (la := Z.log2 (Qnum q)). set (lb := Z.log2 (Zpos (Qden q))).
  destruct (Qle_bool (2 ^ (la - lb)) q) eqn:E.
  - assert (Hnum : (0 < Qnum q)%Z) by now apply Qnum_pos.
    pose proof (Z.log2_spec (Qnum q) Hnum) as [_ Ha]. fold la in Ha.
    pose proof (Z.log2_spec (Zpos (Qden q)) ltac:(lia)) as [Hb _]. fold lb in Hb.
    pose proof (Z.log2_nonneg (Qnum q)) as Hla. fold la in Hla.
    pose proof (Z.log2_nonneg (Zpos (Qden q))) as Hlb. fold lb in Hlb.
    replace (la - lb + 1)%Z with (Z.succ la + - lb)%Z by lia.
    rewrite Qpower_plus by discriminate.
    rewrite Qpower_opp, !two_pow_Z by lia.
    assert (HB : (0 < 2 ^ lb)%Z) by (apply Z.pow_pos_nonneg; lia).
    destruct (2 ^ lb)%Z as [|B|B] eqn:EB; try lia.
    unfold Qlt, Qmult, Qinv, inject_Z. cbn [Qnum Qden].
    destruct q as [n d]. cbn [Qnum Qden] in *. nia.
  - replace (la - lb - 1 + 1)%Z with (la - lb)%Z by lia.
    apply Qnot_le_lt. intros H. apply Qle_bool_iff in H. congruence.
Qed.

(** Rounding to binary64 moves a positive number by at most [2^-53] of
    its value. *)
Lemma binary64_pos_accuracy (q : Q) :
  0 < q ->
  q - q * (1 # 9007199254740992) <= PyFloat.binary64_pos q
    <= q + q * (1 # 9007199254740992).
Proof.
  intros Hq. unfold PyFloat.binary64_pos.
  pose proof (exponent_le q Hq) as He.
  set (e := PyFloat.exponent q) in *.
  set (s := (e - 52)%Z).
  set (P := 2 ^ s).
  assert (HP : 0 < P) by apply two_pow_pos.
  set (x := q * 2 ^ (- s)).
  assert (Hinv : 2 ^ (- s) * P == 1).
  { unfold P. rewrite <- Qpower_plus by discriminate.
    replace (- s + s)%Z with 0%Z by lia. reflexivity. }
  assert (Hxq : x * P == q).
  { unfold x. rewrite <- Qmult_assoc, Hinv. ring. }
  assert (Hx52 : 4503599627370496 <= x).
  { unfold x.
    assert (E52 : 2 ^ e * 2 ^ (- s) == 4503599627370496).
    { rewrite <- Qpower_plus by discriminate.
      replace (e + - s)%Z with 52%Z by (unfold s; lia). reflexivity. }
    rewrite <- E52. apply Qmult_le_compat_r; [exact He|].
    apply Qlt_le_weak, two_pow_pos. }
  assert (Hxpos : (0 < Qnum x)%Z).
  { apply Qnum_pos, Qlt_le_trans with 4503599627370496; [reflexivity | exact Hx52]. }
  pose proof (round_half_even_error (Qnum x) (Zpos (Qden x)) ltac:(lia) ltac:(lia))
    as Herr.
  set (m := PyFmt.round_half_even (Qnum x) (Zpos (Qden x))) in *.
  assert (Hm : x - (1 # 2) <= inject_Z m <= x + (1 # 2)).
  { destruct x as [n d]. unfold Qle, Qminus, Qplus, Qopp, inject_Z.
    cbn [Qnum Qden] in *. rewrite !Pos2Z.inj_mul. nia. }
  destruct Hm as [Hm1 Hm2].
  assert (H1 : (x - (1 # 2)) * P <= inject_Z m * P)
    by (apply Qmult_le_compat_r; [exact Hm1|lra]).
  assert (H2 : inject_Z m * P <= (x + (1 # 2)) * P)
    by (apply Qmult_le_compat_r; [exact Hm2|lra]).
  assert (H3 : 4503599627370496 * P <= x * P)
    by (apply Qmult_le_compat_r; [exact Hx52|lra]).
  set (v := inject_Z m * P) in *.
  setoid_replace ((x - (1 # 2)) * P) with (q - (1 # 2) * P) in H1
    by (rewrite <- Hxq; ring).
  setoid_replace ((x + (1 # 2)) * P) with (q + (1 # 2) * P) in H2
    by (rewrite <- Hxq; ring).
  rewrite Hxq in H3.
  split; lra.
Qed.

Lemma binary64_accuracy (q : Q) :
  0 <= q ->
  q - q * (1 # 9007199254740992) <= PyFloat.binary64 q
    <= q + q * (1 # 9007199254740992).
Proof.
  intros Hq. unfold PyFloat.binary64.
  destruct (Qnum q) as [|n|n] eqn:En.
  - assert (E : q == 0) by (unfold Qeq; rewrite En; reflexivity).
    rewrite E. split; discriminate.
  - apply binary64_pos_accuracy. unfold Qlt. rewrite En. reflexivity.
  - exfalso. unfold Qle in Hq. rewrite En in Hq. cbn in Hq. lia.
Qed.

(** [a / b] with [b <> 0] returns, and [a / 0] raises. *)
Lemma true_div_nonzero (a b : Z) :
  b <> 0%Z ->
  PyFloat.true_div a b = Ok (PyFloat.binary64 (inject_Z a / inject_Z b)).
Proof.
  intros Hb. unfold PyFloat.true_div.
  destruct (Z.eqb_spec b 0); [contradiction|reflexivity].
Qed.

Lemma true_div_zero (a : Z) : PyFloat.true_div a 0 = Raise "division by zero".
Proof. reflexivity. Qed.

Lemma quotient_nonneg (a b : Z) :
  (0 <= a)%Z -> (0 < b)%Z -> 0 <= inject_Z a / inject_Z b.
Proof.
  intros Ha Hb. apply Qle_shift_div_l.
  - change 0 with (inject_Z 0). rewrite <- Zlt_Qlt. exact Hb.
  - rewrite Qmult_0_l. change 0 with (inject_Z 0). rewrite <- Zle_Qle. exact Ha.
Qed.

(* ------------------------------------------------------------------ *)
(** ** Average sentence length *)
(* ------------------------------------------------------------------ *)

(** The conditional expression never raises: the division is evaluated for
    a non-empty list of sentences only. *)
Lemma avg_len_expr_ok (tb : TextBlob) (corpus : string) :
  avg_len_expr tb corpus = Ok (avg_len tb corpus).
Proof.
  unfold avg_len, avg_len_expr.
  destruct (tb_sentences tb corpus) as [|s rest]; [reflexivity|].
  rewrite true_div_nonzero; [reflexivity|].
  cbn [List.length]. lia.
Qed.

Lemma renders_weaken (eps eps' x : Q) (s : string) :
  eps <= eps' -> renders eps x s -> renders eps' x s.
Proof.
  intros He (v & Hv & H1 & H2). exists v. split; [exact Hv|]. split; lra.
Qed.

(** A numeral that renders [y] within [eps] renders every [x] within
    [delta] of [y] within [eps + delta]. *)
Lemma renders_near (eps delta x y : Q) (s : string) :
  y - delta <= x <= y + delta ->
  renders eps x s -> renders (eps + delta) y s.
Proof.
  intros [Hx1 Hx2] (v & Hv & H1 & H2). exists v. split; [exact Hv|]. split; lra.
Qed.

Lemma format_fixed_renders_1 (x : Q) : renders (1 # 20) x (PyFmt.format_fixed 1 x).
Proof.
  apply renders_weaken with ((1 # 2) / inject_Z (10 ^ Z.of_nat 1)).
  - discriminate.
  - apply format_fixed_renders. discriminate.
Qed.

Lemma format_fixed_renders_2 (x : Q) : renders (1 # 200) x (PyFmt.format_fixed 2 x).
Proof.
  apply renders_weaken with ((1 # 2) / inject_Z (10 ^ Z.of_nat 2)).
  - discriminate.
  - apply format_fixed_renders. discriminate.
Qed.

(** C4. The expression for the average sentence length never raises, and
    its value, rendered with one decimal, stands on the last line of the
    output.  With no sentence the value is 0 and is rendered "0.0", and
    no division is evaluated: the division the guard skips would raise.
    With [n > 0] sentences the value is the float quotient [total / n] of
    the total number of words of the sentences by [n]: it differs from the
    exact quotient by at most [2^-53] of it, and the rendered numeral
    denotes a number within 0.05 (and that rounding error) of the exact
    quotient. *)
Theorem avg_len_spec (tb : TextBlob) (posts comments : list ContentItem) :
  let corpus := combined posts comments in
  let ss := tb_sentences tb corpus in
  let n := Z.of_nat (List.length ss) in
  let total := Z.of_nat (list_sum (map (fun s => List.length (tb_words tb s)) ss)) in
  let reported := PyFmt.format_fixed 1 (avg_len tb corpus) in
  avg_len_expr tb corpus = Ok (avg_len tb corpus)
  /\ (exists front,
        build_persona_simple tb posts comments =
        (front ++ "- Average sentence length: " ++ reported ++ " words"
           ++ PyStr.nl)%string)
  /\ (ss = [] ->
        avg_len tb corpus = 0
        /\ reported = "0.0"%string
        /\ PyFloat.true_div total n = Raise "division by zero")
  /\ (ss <> [] ->
        let q := inject_Z total / inject_Z n in
        PyFloat.true_div total n = Ok (avg_len tb corpus)
        /\ q - q * (1 # 9007199254740992) <= avg_len tb corpus
             <= q + q * (1 # 9007199254740992)
        /\ renders ((1 # 20) + q * (1 # 9007199254740992)) q reported).
Proof.
  intros corpus ss n total reported.
  pose proof (avg_len_expr_ok tb corpus) as Hok.
  split; [exact Hok|]. split.
  - rewrite build_persona_simple_blocks, style_lines_join. fold corpus.
    exists (PyStr.join PyStr.nl
              (summary_lines (top_topics tb corpus) (tb_polarity tb corpus))
            ++ PyStr.nl
            ++ PyStr.join PyStr.nl (interest_lines (top_topics tb corpus))
            ++ PyStr.nl ++ PyStr.nl
            ++ "**Communication Style & Tone:**" ++ PyStr.nl
            ++ "- Sentiment polarity: "
            ++ PyFmt.format_fixed 2 (tb_polarity tb corpus)
            ++ ", subjectivity: "
            ++ PyFmt.format_fixed 2 (tb_subjectivity tb corpus)
            ++ PyStr.nl)%string.
    fold reported.
    generalize (PyStr.join PyStr.nl
                  (summary_lines (top_topics tb corpus) (tb_polarity tb corpus)))
               (PyStr.join PyStr.nl (interest_lines (top_topics tb corpus)))
               (PyFmt.format_fixed 2 (tb_polarity tb corpus))
               (PyFmt.format_fixed 2 (tb_subjectivity tb corpus))
               reported.
    intros a b c d e. rewrite !append_assoc. reflexivity.
  - split.
    + intros Hnil. subst reported n total.
      unfold avg_len, avg_len_expr. fold corpus. fold ss. rewrite Hnil.
      split; [reflexivity|]. split; reflexivity.
    + intros Hne q.
      assert (Hn : (0 < n)%Z).
      { subst n. destruct ss; [congruence|]. cbn [List.length]. lia. }
      assert (Hdiv : PyFloat.true_div total n = Ok (avg_len tb corpus)).
      { rewrite <- Hok. unfold avg_len_expr. fold corpus. fold ss.
        destruct ss; [congruence|]. reflexivity. }
      split; [exact Hdiv|].
      rewrite true_div_nonzero in Hdiv by lia.
      injection Hdiv as Hv. fold q in Hv.
      assert (Hq : 0 <= q) by (apply quotient_nonneg; [subst total; lia|exact Hn]).
      pose proof (binary64_accuracy q Hq) as Hacc. rewrite Hv in Hacc.
      split; [exact Hacc|].
      apply renders_near with (x := avg_len tb corpus); [exact Hacc|].
      apply format_fixed_renders_1.
Qed.

Local Close Scope Q_scope.

(* ------------------------------------------------------------------ *)
(** ** The corpus without topics *)
(* ------------------------------------------------------------------ *)

Local Open Scope string_scope.

(** No topic word: every alphabetic token of the corpus is a stopword. *)
Lemma topic_words_nil_iff (tb : TextBlob) (corpus : string) :
  topic_words tb corpus = []
  <-> forall w, In w (tb_words tb corpus) -> tb_isalpha tb w = true ->
                PyStr.mem (tb_lower tb w) stopwords = true.
Proof.
  unfold topic_words. split.
  - intros H w Hin Ha.
    destruct (PyStr.mem (tb_lower tb w) stopwords) eqn:E; [reflexivity|].
    assert (Hf : In w (filter (fun w => tb_isalpha tb w
                     && negb (PyStr.mem (tb_lower tb w) stopwords))
                   (tb_words tb corpus))).
    { apply filter_In. split; [exact Hin|]. now rewrite Ha, E. }
    apply (in_map (tb_lower tb)) in Hf. rewrite H in Hf. destruct Hf.
  - intros H. induction (tb_words tb corpus) as [|w ws IH]; [reflexivity|].
    cbn [filter].
    destruct (tb_isalpha tb w) eqn:Ha; cbn [andb].
    + rewrite (H w (or_introl eq_refl) Ha). cbn [negb].
      apply IH. intros v Hv. apply H. now right.
    + apply IH. intros v Hv. apply H. now right.
Qed.

(** C3. When the corpus yields no alphabetic token outside the stopword
    set (an empty corpus included), the builder returns the text below:
    it carries the insufficient-content message, and the Key Interests
    header is followed at once by the Communication Style block, with no
    topic bullet anywhere in the output.  The one expression of the
    builder that could raise, the division, does not. *)
Theorem insufficient_content (tb : TextBlob) (posts comments : list ContentItem) :
  topic_words tb (combined posts comments) = [] ->
  let corpus := combined posts comments in
  let out := build_persona_simple tb posts comments in
  out = "**Summary:**" ++ PyStr.nl
        ++ "Not enough content to summarize interests." ++ PyStr.nl ++ PyStr.nl
        ++ "**Key Interests/Topics:**" ++ PyStr.nl ++ PyStr.nl
        ++ "**Communication Style & Tone:**" ++ PyStr.nl
        ++ "- Sentiment polarity: " ++ PyFmt.format_fixed 2 (tb_polarity tb corpus)
        ++ ", subjectivity: " ++ PyFmt.format_fixed 2 (tb_subjectivity tb corpus)
        ++ PyStr.nl
        ++ "- Average sentence length: " ++ PyFmt.format_fixed 1 (avg_len tb corpus)
        ++ " words" ++ PyStr.nl
  /\ substring "Not enough content to summarize interests." out
  /\ interest_lines (top_topics tb corpus) = ["**Key Interests/Topics:**"]
  /\ ~ substring "(mentioned" out
  /\ avg_len_expr tb corpus = Ok (avg_len tb corpus).
Proof.
  intros Hnil corpus out.
  assert (Hout : out = "**Summary:**" ++ PyStr.nl
        ++ "Not enough content to summarize interests." ++ PyStr.nl ++ PyStr.nl
        ++ "**Key Interests/Topics:**" ++ PyStr.nl ++ PyStr.nl
        ++ "**Communication Style & Tone:**" ++ PyStr.nl
        ++ "- Sentiment polarity: " ++ PyFmt.format_fixed 2 (tb_polarity tb corpus)
        ++ ", subjectivity: " ++ PyFmt.format_fixed 2 (tb_subjectivity tb corpus)
        ++ PyStr.nl
        ++ "- Average sentence length: " ++ PyFmt.format_fixed 1 (avg_len tb corpus)
        ++ " words" ++ PyStr.nl).
  { unfold out. rewrite build_persona_simple_blocks. fold corpus.
    rewrite (top_topics_nil tb corpus Hnil), style_lines_join.
    reflexivity. }
  split; [exact Hout|].
  split.
  - rewrite Hout. exists ("**Summary:**" ++ PyStr.nl). eexists. reflexivity.
  - split.
    + now rewrite (top_topics_nil tb corpus Hnil).
    + split; [|apply avg_len_expr_ok].
      intros Hsub.
      pose (ok := fun c : ascii => negb (Ascii.eqb c "(")).
      assert (Hnum : forall d x, d <> 0%nat ->
                PyStr.forallb_str ok (PyFmt.format_fixed d x) = true).
      { intros d x Hd.
        apply (forallb_str_impl numeric_char).
        - intros c. unfold numeric_char, ok, PyStr.is_digit.
          destruct (Ascii.eqb_spec c "(") as [->|]; [discriminate|reflexivity].
        - eapply fixed_decimals_numeric, format_fixed_decimals, Hd. }
      assert (Hall : PyStr.forallb_str ok out = true).
      { rewrite Hout. rewrite !forallb_str_app, !Hnum by discriminate.
        reflexivity. }
      pose proof (substring_forallb ok _ _ Hsub Hall) as Hbad.
      discriminate Hbad.
Qed.

Lemma insufficient_content_witness :
  let out := build_persona_simple Sample.analyzer [] [Sample.comment "It is the"] in
  substring "Not enough content to summarize interests." out
  /\ ~ substring "(mentioned" out.
Proof.
  pose proof (insufficient_content Sample.analyzer [] [Sample.comment "It is the"]
                eq_refl) as H.
  split; apply H.
Defined.

Lemma avg_len_sample :
  let c20 := "a b. a b. a b. a. a. a. a. a. a. a. a. a. a. a. a. a. a. a. a. a." in
  (List.length (tb_sentences Sample.analyzer c20) = 20%nat
   /\ total_words Sample.analyzer (tb_sentences Sample.analyzer c20) = 23%nat
   /\ PyFmt.format_fixed 1 (avg_len Sample.analyzer c20) = "1.1")
  /\ (avg_len Sample.analyzer "one two three. four five" == 5 # 2)%Q
  /\ PyFmt.format_fixed 1 (avg_len Sample.analyzer "one two three. four five") = "2.5"
  /\ avg_len_expr Sample.analyzer "" = Ok 0%Q.
Proof.
  intros c20.
  split; [split; [|split]; vm_compute; reflexivity|].
  split; [vm_compute; reflexivity|].
  split; vm_compute; reflexivity.
Qed.

(* ------------------------------------------------------------------ *)
(** ** The Communication Style block *)
(* ------------------------------------------------------------------ *)

(** C9. Whatever the input, the output ends with the Communication Style
    block: the header, a line with polarity and subjectivity, each a
    numeral with exactly two decimals that denotes a number within 0.005
    of the score, and a line with the average sentence length, a numeral
    with exactly one decimal that denotes a number within 0.05 of it.
    What stands before the block is the summary and the Key Interests
    lines; without topics these are the insufficient-content message and
    the bare Key Interests header. *)
Theorem style_block_always (tb : TextBlob) (posts comments : list ContentItem) :
  let corpus := combined posts comments in
  let top := top_topics tb corpus in
  let P := PyFmt.format_fixed 2 (tb_polarity tb corpus) in
  let S := PyFmt.format_fixed 2 (tb_subjectivity tb corpus) in
  let A := PyFmt.format_fixed 1 (avg_len tb corpus) in
  let before :=
    PyStr.join PyStr.nl
      (summary_lines top (tb_polarity tb corpus) ++ interest_lines top)%list in
  build_persona_simple tb posts comments =
    before ++ PyStr.nl ++ PyStr.nl
      ++ "**Communication Style & Tone:**" ++ PyStr.nl
      ++ "- Sentiment polarity: " ++ P ++ ", subjectivity: " ++ S ++ PyStr.nl
      ++ "- Average sentence length: " ++ A ++ " words" ++ PyStr.nl
  /\ (fixed_decimals 2 P /\ renders (1 # 200) (tb_polarity tb corpus) P)
  /\ (fixed_decimals 2 S /\ renders (1 # 200) (tb_subjectivity tb corpus) S)
  /\ (fixed_decimals 1 A /\ renders (1 # 20) (avg_len tb corpus) A)
  /\ (top = [] ->
        before = "**Summary:**" ++ PyStr.nl
                   ++ "Not enough content to summarize interests." ++ PyStr.nl
                   ++ PyStr.nl ++ "**Key Interests/Topics:**").
Proof.
  intros corpus top P S A before.
  split.
  - rewrite build_persona_simple_blocks. fold corpus. fold top.
    rewrite style_lines_join. unfold before.
    rewrite join_app; [|discriminate|discriminate].
    rewrite !append_assoc. reflexivity.
  - split; [split; [apply format_fixed_decimals; discriminate
                   |apply format_fixed_renders_2]|].
    split; [split; [apply format_fixed_decimals; discriminate
                   |apply format_fixed_renders_2]|].
    split; [split; [apply format_fixed_decimals; discriminate
                   |apply format_fixed_renders_1]|].
    intros Hnil. unfold before. rewrite Hnil. reflexivity.
Qed.

(* ------------------------------------------------------------------ *)
(** ** The ranges of the sentiment scores *)
(* ------------------------------------------------------------------ *)

Local Open Scope Q_scope.

Lemma clamp_bounds (lo hi x : Q) :
  lo <= hi -> lo <= SpecSentiment.clamp lo hi x <= hi.
Proof.
  intros Hlh. unfold SpecSentiment.clamp.
  destruct (Qltb x lo) eqn:E1.
  - split; [apply Qle_refl|exact Hlh].
  - destruct (Qltb hi x) eqn:E2.
    + split; [exact Hlh|apply Qle_refl].
    + split; apply Qnot_lt_le; intros H; apply Qltb_spec in H; congruence.
Qed.

Lemma sum_bounds (lo hi : Q) (xs : list Q) :
  Forall (fun x => lo <= x <= hi) xs ->
  lo * inject_Z (Z.of_nat (List.length xs)) <= fold_right Qplus 0 xs
    <= hi * inject_Z (Z.of_nat (List.length xs)).
Proof.
  induction 1 as [|x xs [Hx1 Hx2] _ [IH1 IH2]].
  - cbn. split; rewrite Qmult_0_r; apply Qle_refl.
  - cbn [List.length fold_right].
    rewrite Nat2Z.inj_succ. unfold Z.succ. rewrite inject_Z_plus.
    change (inject_Z 1) with 1.
    split; lra.
Qed.

Lemma mean_bounds (lo hi : Q) (xs : list Q) :
  lo <= 0 <= hi ->
  Forall (fun x => lo <= x <= hi) xs ->
  lo <= SpecSentiment.mean xs <= hi.
Proof.
  intros H0 Hall. unfold SpecSentiment.mean.
  destruct xs as [|x rest]; [exact H0|].
  pose proof (sum_bounds lo hi (x :: rest) Hall) as [H1 H2].
  assert (Hn : 0 < inject_Z (Z.of_nat (List.length (x :: rest)))).
  { change 0 with (inject_Z 0). rewrite <- Zlt_Qlt. cbn [List.length]. lia. }
  split.
  - apply Qle_shift_div_l; assumption.
  - apply Qle_shift_div_r; assumption.
Qed.

Lemma assessments_bounds (lex : SpecSentiment.Lexicon) (ws : list string) :
  Forall (fun a => (-1 <= fst a <= 1) /\ (0 <= snd a <= 1))
         (SpecSentiment.assessments lex ws).
Proof.
  induction ws as [|w ws IH]; [constructor|].
  cbn [SpecSentiment.assessments].
  destruct (lex w) as [[p s]|]; [|exact IH].
  constructor; [|exact IH]. cbn [fst snd].
  split; apply clamp_bounds; discriminate.
Qed.

Lemma polarity_range lex words (s : string) :
  -1 <= SpecSentiment.polarity lex words s <= 1.
Proof.
  unfold SpecSentiment.polarity. apply mean_bounds.
  - split; discriminate.
  - apply Forall_map. eapply Forall_impl; [|apply assessments_bounds].
    intros a [H _]. exact H.
Qed.

Lemma subjectivity_range lex words (s : string) :
  0 <= SpecSentiment.subjectivity lex words s <= 1.
Proof.
  unfold SpecSentiment.subjectivity. apply mean_bounds.
  - split; discriminate.
  - apply Forall_map. eapply Forall_impl; [|apply assessments_bounds].
    intros a [_ H]. exact H.
Qed.

Local Close Scope Q_scope.

(** The output for a corpus without topics. *)
Lemma no_topics_text (tb : TextBlob) (posts comments : list ContentItem) :
  let corpus := combined posts comments in
  top_topics tb corpus = [] ->
  build_persona_simple tb posts comments =
    "**Summary:**" ++ PyStr.nl
      ++ "Not enough content to summarize interests." ++ PyStr.nl ++ PyStr.nl
      ++ "**Key Interests/Topics:**" ++ PyStr.nl ++ PyStr.nl
      ++ "**Communication Style & Tone:**" ++ PyStr.nl
      ++ "- Sentiment polarity: " ++ PyFmt.format_fixed 2 (tb_polarity tb corpus)
      ++ ", subjectivity: " ++ PyFmt.format_fixed 2 (tb_subjectivity tb corpus)
      ++ PyStr.nl
      ++ "- Average sentence length: " ++ PyFmt.format_fixed 1 (avg_len tb corpus)
      ++ " words" ++ PyStr.nl.
Proof.
  intros corpus Hnil.
  rewrite build_persona_simple_blocks. fold corpus.
  rewrite Hnil, style_lines_join. reflexivity.
Qed.

(** Without topics the output has no capital O, hence no
    "Overall sentiment is ..." sentence. *)
Lemma no_topics_no_label (tb : TextBlob) (posts comments : list ContentItem) :
  top_topics tb (combined posts comments) = [] ->
  ~ substring "Overall sentiment" (build_persona_simple tb posts comments).
Proof.
  intros Hnil Hsub.
  pose (ok := fun c : ascii => negb (Ascii.eqb c "O")).
  assert (Hnum : forall d x, d <> 0%nat ->
            PyStr.forallb_str ok (PyFmt.format_fixed d x) = true).
  { intros d x Hd.
    apply (forallb_str_impl numeric_char).
    - intros c. unfold numeric_char, ok, PyStr.is_digit.
      destruct (Ascii.eqb_spec c "O") as [->|]; [discriminate|reflexivity].
    - eapply fixed_decimals_numeric, format_fixed_decimals, Hd. }
  assert (Hall : PyStr.forallb_str ok (build_persona_simple tb posts comments) = true).
  { rewrite (no_topics_text tb posts comments Hnil).
    rewrite !forallb_str_app, !Hnum by discriminate. reflexivity. }
  pose proof (substring_forallb ok _ _ Hsub Hall) as Hbad.
  discriminate Hbad.
Qed.

(* ------------------------------------------------------------------ *)
(** ** The tone label *)
(* ------------------------------------------------------------------ *)

(** With a topic, whatever the analyzer, the summary line names the topics
    and the tone of the polarity the analyzer returned. *)
Lemma summary_with_topics (tb : TextBlob) (posts comments : list ContentItem) :
  let corpus := combined posts comments in
  let top := top_topics tb corpus in
  top <> [] ->
  exists rest,
    build_persona_simple tb posts comments =
    "**Summary:**" ++ PyStr.nl ++ "User frequently discusses "
      ++ PyStr.join ", " (map fst top) ++ ". Overall sentiment is "
      ++ tone (tb_polarity tb corpus) ++ "." ++ PyStr.nl ++ PyStr.nl
      ++ "**Key Interests/Topics:**" ++ rest.
Proof.
  intros corpus top Htop.
  rewrite build_persona_simple_blocks. fold corpus. fold top.
  rewrite (summary_lines_join top (tb_polarity tb corpus) Htop).
  destruct top as [|tc top']; [congruence|].
  unfold interest_lines.
  destruct (map bullet (tc :: top')) as [|b bs] eqn:Eb; [discriminate|].
  eexists. cbn [PyStr.join].
  rewrite !append_assoc. reflexivity.
Qed.

(** C5, counterexample. A user whose one comment is "It is the": the
    model call fails, the script falls back and writes the text of the
    builder.  The polarity of the corpus is 0, yet the written text
    carries no tone label at all, neither "neutral" nor another. *)
Lemma no_tone_label_without_topics :
  let w := Sample.world Sample.reddit_terse Sample.chat_quota in
  let comments := [Sample.comment "It is the"] in
  let out := build_persona_simple Sample.analyzer [] comments in
  written (MainOpenai.main w Sample.url) = [(out_file "kojied", out)]
  /\ (tb_polarity Sample.analyzer (combined [] comments) == 0)%Q
  /\ ~ substring "neutral" out
  /\ ~ substring "positive" out
  /\ ~ substring "negative" out
  /\ ~ substring "Overall sentiment" out.
Proof.
  split; [vm_compute; reflexivity|].
  split; [vm_compute; reflexivity|].
  split; [apply not_substring; vm_compute; reflexivity|].
  split; [apply not_substring; vm_compute; reflexivity|].
  split; apply not_substring; vm_compute; reflexivity.
Qed.

(** C5, amended. For the analyzer with the spec's sentiment estimator,
    whatever its lexicon, tokenizer and word methods, and for every
    input: the polarity lies in [[-1,1]] and the subjectivity in [[0,1]],
    and the tone is positive, negative or neutral as the polarity is
    above, below or equal to 0.  When the top-topics list is not empty,
    the summary line is "User frequently discusses <topics>. Overall
    sentiment is <tone>."; when it is empty, the summary is the
    insufficient-content line and the output has no tone label.  The
    two scores are rendered within -1.00..1.00 and 0.00..1.00. *)
Theorem tone_label_matches (lex : SpecSentiment.Lexicon)
    (words sentences : string -> list string)
    (isalpha : string -> bool) (lower : string -> string)
    (posts comments : list ContentItem) :
  let tb := SpecSentiment.blob lex words sentences isalpha lower in
  let corpus := combined posts comments in
  let p := tb_polarity tb corpus in
  let s := tb_subjectivity tb corpus in
  let top := top_topics tb corpus in
  let out := build_persona_simple tb posts comments in
  (-1 <= p <= 1)%Q
  /\ (0 <= s <= 1)%Q
  /\ ((tone p = "positive" /\ (0 < p)%Q)
      \/ (tone p = "negative" /\ (p < 0)%Q)
      \/ (tone p = "neutral" /\ (p == 0)%Q))
  /\ (top <> [] ->
        exists rest,
          out = "**Summary:**" ++ PyStr.nl ++ "User frequently discusses "
                  ++ PyStr.join ", " (map fst top) ++ ". Overall sentiment is "
                  ++ tone p ++ "." ++ PyStr.nl ++ PyStr.nl
                  ++ "**Key Interests/Topics:**" ++ rest)
  /\ (top = [] ->
        (exists rest,
           out = "**Summary:**" ++ PyStr.nl
                   ++ "Not enough content to summarize interests." ++ PyStr.nl
                   ++ PyStr.nl ++ "**Key Interests/Topics:**" ++ rest)
        /\ ~ substring "Overall sentiment" out)
  /\ (exists sign u,
        PyFmt.format_fixed 2 p = sign ++ u
        /\ (sign = "" \/ sign = "-") /\ unit_numeral u)
  /\ unit_numeral (PyFmt.format_fixed 2 s).
Proof.
  intros tb corpus p s top out.
  assert (Hp : (-1 <= p <= 1)%Q) by apply polarity_range.
  assert (Hs : (0 <= s <= 1)%Q) by apply subjectivity_range.
  split; [exact Hp|]. split; [exact Hs|].
  split; [apply tone_sign|].
  split; [apply summary_with_topics|].
  split.
  { intros Hnil. split.
    - unfold out. rewrite (no_topics_text tb posts comments Hnil).
      eexists. reflexivity.
    - apply no_topics_no_label. exact Hnil. }
  split.
  - destruct (format_fixed_unit_abs p Hp) as (u & Hu & E).
    exists (if (Qnum p <? 0)%Z then "-" else ""), u.
    split; [exact E|]. split; [|exact Hu].
    destruct (Qnum p <? 0)%Z; auto.
  - assert (Hs' : (-1 <= s <= 1)%Q).
    { destruct Hs as [H0 H1]. split; [|exact H1].
      eapply Qle_trans; [|exact H0]. discriminate. }
    destruct (format_fixed_unit_abs s Hs') as (u & Hu & E).
    rewrite E.
    assert (Hn : (Qnum s <? 0)%Z = false).
    { apply Z.ltb_ge. destruct Hs as [H0 _]. unfold Qle in H0.
      cbn [Qnum Qden] in H0. lia. }
    rewrite Hn. exact Hu.
Qed.

Lemma tone_label_matches_witness :
  let lex := fun w => Sample.lookup (PyStr.lower w) Sample.lexicon in
  let tb := SpecSentiment.blob lex Sample.words Sample.sentences
                               PyStr.isalpha PyStr.lower in
  let posts := [Sample.post "I love hiking and climbing"] in
  let comments := [Sample.comment "Climbing is great exercise"] in
  (tb_polarity tb (combined posts comments) == 13 # 20)%Q
  /\ PyStr.contains "Overall sentiment is positive."
       (build_persona_simple tb posts comments) = true
  /\ (-1 <= tb_polarity tb (combined posts comments) <= 1)%Q
  /\ unit_numeral
       (PyFmt.format_fixed 2 (tb_subjectivity tb (combined posts comments))).
Proof.
  intros lex tb posts comments.
  split; [vm_compute; reflexivity|].
  split; [vm_compute; reflexivity|].
  pose proof (tone_label_matches lex Sample.words Sample.sentences
                PyStr.isalpha PyStr.lower posts comments) as H.
  split; [apply H|apply H].
Defined.
